(** * Job summary hints of the webportal: [summary.jsx]

    A shallow embedding of the [Summary] React component of
    [src/webportal/src/app/job/job-view/fabric/job-detail/components/summary.jsx]:
    the hint derivation ([getUserFailureHintItems], [renderHintMessage]) and
    the [disabled] flag of the Stop button.

    The job record arrives as parsed JSON.  Every property read is modelled
    by [js A]: the property is missing ([Undefined]), is JSON [null]
    ([Null]), or holds a value of the type the REST API gives it ([Val]).
    Reading a property of [undefined]/[null] throws a [TypeError]; lodash
    [get] does not.  JSX elements are modelled by the tree type [node]. *)

From Stdlib Require Import ZArith String List Bool Lia DecimalString.
From Stdlib Require Import DecimalNat.
Import ListNotations.
Local Open Scope string_scope.
Local Open Scope list_scope.

Set Implicit Arguments.

(** ** JavaScript values at a known type *)

Inductive js (A : Type) : Type :=
| Undefined : js A
| Null : js A
| Val (a : A) : js A.
Arguments Undefined {A}.
Arguments Null {A}.

(** ToBoolean, the test of [if (x)], [!x] and [x && y]. *)
Class ToBoolean (A : Type) : Type := to_boolean : A -> bool.

#[export] Instance ToBoolean_string : ToBoolean string :=
  fun s => negb (String.eqb s EmptyString).
#[export] Instance ToBoolean_Z : ToBoolean Z :=
  fun z => negb (Z.eqb z 0).
#[export] Instance ToBoolean_array (A : Type) : ToBoolean (list A) :=
  fun _ => true.
#[export] Instance ToBoolean_js (A : Type) `{ToBoolean A} : ToBoolean (js A) :=
  fun v => match v with Val a => to_boolean a | _ => false end.

(** [a && a.f] where [a] is an object or missing: the left operand when it
    is falsy, the property otherwise. *)
Definition js_and {A B : Type} (a : js A) (f : A -> js B) : js B :=
  match a with
  | Undefined => Undefined
  | Null => Null
  | Val x => f x
  end.

(** [x === s] for a string literal [s]. *)
Definition strict_eq (x : js string) (s : string) : bool :=
  match x with
  | Val y => String.eqb y s
  | _ => false
  end.

(** ToNumber on the operands the comparisons of this file receive;
    [None] is NaN. *)
Definition ToNumber (x : js Z) : option Z :=
  match x with
  | Undefined => None
  | Null => Some 0%Z
  | Val z => Some z
  end.

(** [x > n] and [x >= n] for a number literal [n]: false on NaN. *)
Definition js_gt (x : js Z) (n : Z) : bool :=
  match ToNumber x with
  | Some z => Z.ltb n z
  | None => false
  end.

Definition js_ge (x : js Z) (n : Z) : bool :=
  match ToNumber x with
  | Some z => Z.leb n z
  | None => false
  end.

(** lodash [isNil] and [isEmpty] (on arrays). *)
Definition isNil {A : Type} (x : js A) : bool :=
  match x with
  | Val _ => false
  | _ => true
  end.

Definition isEmpty {A : Type} (l : list A) : bool :=
  match l with
  | [] => true
  | _ :: _ => false
  end.

(** One step of lodash [baseGet]: a missing or null object ends the walk
    with [undefined]; otherwise the property is read. *)
Definition baseGet {A B : Type} (o : js A) (f : A -> js B) : js B :=
  match o with
  | Val a => f a
  | _ => Undefined
  end.

(** [get(o, 'a.b')] and [get(o, 'a.b.c')] on an object [o]. *)
Definition get2 {O A B : Type} (a : O -> js A) (b : A -> js B) (o : O) : js B :=
  baseGet (a o) b.
Definition get3 {O A B C : Type}
    (a : O -> js A) (b : A -> js B) (c : B -> js C) (o : O) : js C :=
  baseGet (baseGet (a o) b) c.

(** [Array.prototype.push] on an immutable list, one element or a spread. *)
Definition push {A : Type} (l : list A) (x : A) : list A := l ++ [x].
Definition push_all {A : Type} (l xs : list A) : list A := l ++ xs.

(** [arr.map((x, i) => f x i)]. *)
Fixpoint mapi_from {A B : Type} (f : A -> nat -> B) (i : nat) (l : list A) : list B :=
  match l with
  | [] => []
  | x :: r => f x i :: mapi_from f (S i) r
  end.
Definition mapi {A B : Type} (f : A -> nat -> B) (l : list A) : list B :=
  mapi_from f 0 l.

(** [`${i}`] for an array index. *)
Definition string_of_index (i : nat) : string :=
  NilEmpty.string_of_uint (Nat.to_uint i).

(** [Array.prototype.includes] on strings. *)
Fixpoint includes (l : list string) (x : string) : bool :=
  match l with
  | [] => false
  | y :: r => String.eqb y x || includes r x
  end.

(** ** Errors *)

Inductive JsError : Type :=
| TypeError (msg : string).

Inductive outcome (A : Type) : Type :=
| Return (a : A)
| Throw (e : JsError).
Arguments Throw {A}.

Definition obind {A B : Type} (m : outcome A) (k : A -> outcome B) : outcome B :=
  match m with
  | Return a => k a
  | Throw e => Throw e
  end.

(** [o.name] where [o] itself was read from a property: throws on
    [undefined] and [null]. *)
Definition member {A B : Type} (o : js A) (name : string) (f : A -> B) : outcome B :=
  match o with
  | Val a => Return (f a)
  | Undefined =>
      Throw (TypeError ("Cannot read property '" ++ name ++ "' of undefined"))
  | Null =>
      Throw (TypeError ("Cannot read property '" ++ name ++ "' of null"))
  end.

(** ** The job record *)

Module ExitSpec.
Record t : Type := mk {
  type : js string;
  reason : js string;
  solution : js (list string)
}.
End ExitSpec.

Module Runtime.
Record t : Type := mk {
  reason : js string;
  solution : js string;
  originalUserExitCode : js Z
}.
End Runtime.

Module ExitMessages.
Record t : Type := mk {
  runtime : js Runtime.t;
  launcher : js string
}.
End ExitMessages.

Module RetryDetails.
Record t : Type := mk {
  resource : js Z
}.
End RetryDetails.

Record JobStatus : Type := mkJobStatus {
  state : js string;
  appExitCode : js Z;
  appExitDiagnostics : js string;
  appExitSpec : js ExitSpec.t;
  appExitMessages : js ExitMessages.t;
  appExitTriggerMessage : js string;
  appExitTriggerTaskRoleName : js string;
  appExitTriggerTaskIndex : js Z;
  retryDetails : js RetryDetails.t
}.

Record JobInfo : Type := mkJobInfo {
  name : js string;
  jobStatus : js JobStatus
}.

(** Objects are truthy. *)
#[export] Instance ToBoolean_ExitSpec : ToBoolean ExitSpec.t := fun _ => true.
#[export] Instance ToBoolean_Runtime : ToBoolean Runtime.t := fun _ => true.
#[export] Instance ToBoolean_ExitMessages : ToBoolean ExitMessages.t := fun _ => true.
#[export] Instance ToBoolean_JobStatus : ToBoolean JobStatus := fun _ => true.
#[export] Instance ToBoolean_JobInfo : ToBoolean JobInfo := fun _ => true.

(** ** Elements *)

(** The bound methods that the rendered links carry as [onClick]. *)
Inductive handler : Type :=
| showExitDiagnostics_bound
| showJobConfig_bound.

(** [MessageBarType] of office-ui-fabric-react. *)
Module MessageBarType.
Inductive t : Type := info | error | blocked | severeWarning | success | warning.
End MessageBarType.

#[warnings="-register-all"]
Inductive node : Type :=
| NUndefined
| NNull
| NText (s : string)
| NNum (z : Z)
| NArr (items : list node)
| NDiv (key : option string) (className : option string) (children : list node)
| NHintItem (key : string) (header : string) (children : list node)
| NLink (onClick : handler) (children : list node)
| NMessageBar (messageBarType : MessageBarType.t) (children : list node).

(** [{x}] inside JSX. *)
Class ToNode (A : Type) : Type := to_node : A -> node.

#[export] Instance ToNode_string : ToNode string := NText.
#[export] Instance ToNode_Z : ToNode Z := NNum.
#[export] Instance ToNode_js (A : Type) `{ToNode A} : ToNode (js A) :=
  fun v =>
    match v with
    | Undefined => NUndefined
    | Null => NNull
    | Val a => to_node a
    end.

(** ** The component *)

Record MonacoProps : Type := mkMonacoProps {
  language : string;
  value : js string
}.

Record Props : Type := mkProps {
  className : js string;
  jobInfo : js JobInfo;
  reloading : bool
}.

Record State : Type := mkState {
  monacoProps : js MonacoProps;
  modalTitle : string;
  autoReloadInterval : Z
}.

Record Summary : Type := mkSummary {
  props : Props;
  this_state : State
}.

(** A method of the component: reads [this], may throw, leaves a state. *)
Definition M (A : Type) : Type := Summary -> outcome A * State.

Definition ret {A : Type} (a : A) : M A :=
  fun this => (Return a, this_state this).

Definition bind {A B : Type} (m : M A) (k : A -> M B) : M B :=
  fun this =>
    match m this with
    | (Return a, s) => k a (mkSummary (props this) s)
    | (Throw e, s) => (Throw e, s)
    end.

Definition lift {A : Type} (o : outcome A) : M A :=
  fun this => (o, this_state this).

Definition readProps : M Props :=
  fun this => (Return (props this), this_state this).

Definition setState (f : State -> State) : M unit :=
  fun this => (Return tt, f (this_state this)).

Declare Scope method_scope.
Delimit Scope method_scope with method.
Notation "x <- m ;; k" := (bind m (fun x => k))
  (at level 61, m at next level, right associativity) : method_scope.

Definition StoppableStatus : list string := ["Running"; "Waiting"].

Definition onChangeInterval (key : Z) : M unit :=
  setState (fun s => mkState (monacoProps s) (modalTitle s) key).

Definition onDismiss : M unit :=
  setState (fun s => mkState Null EmptyString (autoReloadInterval s)).

Definition showEditor (title : string) (p : MonacoProps) : M unit :=
  setState (fun s => mkState (Val p) title (autoReloadInterval s)).

Definition showExitDiagnostics : M unit :=
  (p <- readProps ;;
   status <- lift (member (jobInfo p) "jobStatus" jobStatus) ;;
   diagnostics <- lift (member status "appExitDiagnostics" appExitDiagnostics) ;;
   showEditor "Exit Diagnostics" (mkMonacoProps "text" diagnostics))%method.

(** ** Hint derivation *)

Section HintMessage.

(** [getHumanizedJobStateString] of [../util]: the humanized state of a
    job, a string such as ['Failed'] or ['Waiting']. *)
Variable getHumanizedJobStateString : JobInfo -> string.

Definition getUserFailureHintItems (jobInfo : JobInfo) : outcome (list node) :=
  let result : list node := [] in
  let runtimeOutput := get3 jobStatus appExitMessages ExitMessages.runtime jobInfo in
  (* reason *)
  let reason : list node := [] in
  (* static reason *)
  let spec := get2 jobStatus appExitSpec jobInfo in
  let reason :=
    if to_boolean (js_and spec ExitSpec.reason)
    then push reason
           (NDiv (Some "spec-reason") None [to_node (js_and spec ExitSpec.reason)])
    else reason in
  (* dynamic reason *)
  obind (member (jobStatus jobInfo) "appExitCode" appExitCode) (fun code =>
  let reason :=
    if js_gt code 0
    then
      if to_boolean (js_and runtimeOutput Runtime.reason)
      then push reason
             (NDiv (Some "runtime-reason") None [to_node (js_and runtimeOutput Runtime.reason)])
      else reason
    else
      let launcherOutput := get3 jobStatus appExitMessages ExitMessages.launcher jobInfo in
      if to_boolean launcherOutput
      then push reason (NDiv (Some "launcher-reason") None [to_node launcherOutput])
      else reason in
  let result :=
    if negb (isEmpty reason)
    then push result (NHintItem "reason" "Exit Reason:" [NArr reason])
    else result in
  (* solution *)
  let solution : list node := [] in
  let solution :=
    if to_boolean (js_and runtimeOutput Runtime.solution)
    then push solution
           (NDiv (Some "runtime-solution") None [to_node (js_and runtimeOutput Runtime.solution)])
    else solution in
  let solution :=
    (* an array is truthy, also when it is empty *)
    match js_and spec ExitSpec.solution with
    | Val entries =>
        push_all solution
          (mapi (fun x i => NDiv (Some ("spec-reason-" ++ string_of_index i)%string) None [to_node x])
                entries)
    | _ => solution
    end in
  let result :=
    if negb (isEmpty solution)
    then push result (NHintItem "solution" "Exit Solutions:" [NArr solution])
    else result in
  let result := push result (NDiv None (Some "h1") []) in
  (* trigger task *)
  let message := get2 jobStatus appExitTriggerMessage jobInfo in
  let role := get2 jobStatus appExitTriggerTaskRoleName jobInfo in
  let idx := get2 jobStatus appExitTriggerTaskIndex jobInfo in
  let result :=
    if to_boolean message
    then push result (NHintItem "trigger-message" "Exit Trigger Message:" [to_node message])
    else result in
  let result :=
    if to_boolean role
    then push result (NHintItem "task-role" "Exit Trigger Task Role:" [to_node role])
    else result in
  let result :=
    if negb (isNil idx)
    then push result (NHintItem "container-id" "Exit Trigger Task Index:" [to_node idx])
    else result in
  (* user exit code *)
  let result :=
    match runtimeOutput with
    | Val output =>
        let userCode := Runtime.originalUserExitCode output in
        if negb (isNil userCode)
        then push result
               (NHintItem "user-exit-code" "Original User Exit Code:" [to_node userCode])
        else result
    | _ => result
    end in
  Return result).

(** The hint shown for every exit that is not a user failure. *)
Definition diagnosticsHint : node :=
  NHintItem "solution" "Exit Solutions:"
    [ NText "Please send the ";
      NLink showExitDiagnostics_bound [NText "exit diagnostics"];
      NText " to your administrator for further investigation." ].

Definition resolutionHint : node :=
  NHintItem "resolution" "Resolution:"
    [ NDiv None None
        [ NText "Please adjust the resource requirement in your ";
          NLink showJobConfig_bound [NText "job config"];
          NText ", or wait till other jobs release more resources back to the system." ] ].

(** A [return;] without a value, and falling off the end, yield
    [Undefined]. *)
Definition renderHintMessage : M (js node) :=
  (p <- readProps ;;
   match jobInfo p with
   | Undefined | Null => ret Undefined
   | Val jobInfo =>
       let state := getHumanizedJobStateString jobInfo in
       if String.eqb state "Failed" || String.eqb state "Stopped" then
         spec <- lift (member (jobStatus jobInfo) "appExitSpec" appExitSpec) ;;
         let type := js_and spec ExitSpec.type in
         (* exit code *)
         code <- lift (member (jobStatus jobInfo) "appExitCode" appExitCode) ;;
         let result : list node := [] in
         let result :=
           push result (NHintItem "platform-exit-code" "Exit Code:" [to_node code]) in
         (* type *)
         let result :=
           if to_boolean type
           then push result (NHintItem "type" "Exit Type:" [to_node type])
           else result in
         result <-
           (if strict_eq type "USER_FAILURE"
            then items <- lift (getUserFailureHintItems jobInfo) ;;
                 ret (push_all result items)
            else ret (push result diagnosticsHint)) ;;
         let messageBarType :=
           if String.eqb state "Failed"
           then MessageBarType.error
           else MessageBarType.info in
         ret (Val (NMessageBar messageBarType [NDiv None None [NArr result]]))
       else if String.eqb state "Waiting" then
         let resourceRetries :=
           get3 jobStatus retryDetails RetryDetails.resource jobInfo in
         if js_ge resourceRetries 3
         then ret (Val (NMessageBar MessageBarType.warning
                [ NDiv None None
                    [ NHintItem "conflict-retry-count" "Conflict Count:"
                        [to_node resourceRetries];
                      resolutionHint ] ]))
         else ret Undefined
       else ret Undefined
   end)%method.

(** The [disabled] property of the Stop button in [render]. *)
Definition stopButtonDisabled (jobInfo : JobInfo) : bool :=
  negb (includes StoppableStatus (getHumanizedJobStateString jobInfo)).

End HintMessage.

(** ** Reading a rendered message *)

(** The hint rows of a message bar: the children of its [div], an array
    child spread out. *)
Definition hints_of (r : node) : list node :=
  match r with
  | NMessageBar _ [NDiv _ _ [NArr items]] => items
  | NMessageBar _ [NDiv _ _ items] => items
  | _ => []
  end.

Definition severity_of (r : node) : option MessageBarType.t :=
  match r with
  | NMessageBar ty _ => Some ty
  | _ => None
  end.

(** The body of the first hint row with the given header. *)
Fixpoint find_hint (header : string) (items : list node) : option (list node) :=
  match items with
  | [] => None
  | NHintItem _ h body :: rest =>
      if String.eqb h header then Some body else find_hint header rest
  | _ :: rest => find_hint header rest
  end.

(** The [key] of a [div]. *)
Definition div_key (n : node) : option string :=
  match n with
  | NDiv k _ _ => k
  | _ => None
  end.

(** The texts of a list of [<div>{text}</div>] parts, in order. *)
Fixpoint texts_of (parts : list node) : list string :=
  match parts with
  | [] => []
  | NDiv _ _ [NText s] :: rest => s :: texts_of rest
  | _ :: rest => texts_of rest
  end.

(** ** The hints, a part being collected when it is a non-empty string

    The source collects a text part under the test [if (text)], which a
    non-empty string passes and [undefined], [null] and the empty string
    fail.  The definitions of this section describe the hints under that
    test; the next but one states them under presence as "not
    undefined". *)

(** A text part that is collected when the property holds a non-empty
    string: [<div key=...>{text}</div>]. *)
Definition part_if_present (key : string) (v : js string) : list node :=
  if to_boolean v then [NDiv (Some key) None [to_node v]] else [].

Definition exit_type_of (status : JobStatus) : js string :=
  js_and (appExitSpec status) ExitSpec.type.

Definition runtime_of (status : JobStatus) : js Runtime.t :=
  baseGet (appExitMessages status) ExitMessages.runtime.

Definition launcher_of (status : JobStatus) : js string :=
  baseGet (appExitMessages status) ExitMessages.launcher.

(** Exit Reason for an exit code of numeric value [code]: the static
    reason, then the runtime reason when the exit code is positive, or else
    the launcher message, each one only when it is a non-empty string. *)
Definition nonempty_reason_parts (status : JobStatus) (code : Z) : list node :=
  part_if_present "spec-reason" (js_and (appExitSpec status) ExitSpec.reason)
  ++ (if Z.ltb 0 code
      then part_if_present "runtime-reason" (js_and (runtime_of status) Runtime.reason)
      else part_if_present "launcher-reason" (launcher_of status)).

(** Exit Solutions: the runtime solution when it is a non-empty string,
    then every entry of the static solution list, as texts. *)
Definition nonempty_solution_texts (status : JobStatus) : list string :=
  match js_and (runtime_of status) Runtime.solution with
  | Val s => if String.eqb s EmptyString then [] else [s]
  | _ => []
  end
  ++ match js_and (appExitSpec status) ExitSpec.solution with
     | Val entries => entries
     | _ => []
     end.

(** A hint body that exists only when it has parts. *)
Definition hint_of_parts (parts : list node) : option (list node) :=
  match parts with
  | [] => None
  | _ :: _ => Some [NArr parts]
  end.

(** ** The blocks of [getUserFailureHintItems]

    One definition per block of pushes; [getUserFailureHintItems_rows]
    below proves that the method returns their concatenation. *)

Definition row (key header : string) (body : option (list node)) : list node :=
  match body with
  | Some b => [NHintItem key header b]
  | None => []
  end.

Definition reason_parts (status : JobStatus) : list node :=
  part_if_present "spec-reason" (js_and (appExitSpec status) ExitSpec.reason)
  ++ (if js_gt (appExitCode status) 0
      then part_if_present "runtime-reason" (js_and (runtime_of status) Runtime.reason)
      else part_if_present "launcher-reason" (launcher_of status)).

Definition solution_entry (x : string) (i : nat) : node :=
  NDiv (Some ("spec-reason-" ++ string_of_index i)%string) None [NText x].

Definition solution_parts (status : JobStatus) : list node :=
  part_if_present "runtime-solution" (js_and (runtime_of status) Runtime.solution)
  ++ match js_and (appExitSpec status) ExitSpec.solution with
     | Val entries => mapi solution_entry entries
     | _ => []
     end.

Definition trigger_message_body (status : JobStatus) : option (list node) :=
  if to_boolean (appExitTriggerMessage status)
  then Some [to_node (appExitTriggerMessage status)]
  else None.

Definition trigger_role_body (status : JobStatus) : option (list node) :=
  if to_boolean (appExitTriggerTaskRoleName status)
  then Some [to_node (appExitTriggerTaskRoleName status)]
  else None.

Definition trigger_index_body (status : JobStatus) : option (list node) :=
  if isNil (appExitTriggerTaskIndex status)
  then None
  else Some [to_node (appExitTriggerTaskIndex status)].

Definition user_code_body (status : JobStatus) : option (list node) :=
  match runtime_of status with
  | Val output =>
      if isNil (Runtime.originalUserExitCode output)
      then None
      else Some [to_node (Runtime.originalUserExitCode output)]
  | _ => None
  end.

Definition user_failure_rows (status : JobStatus) : list node :=
  row "reason" "Exit Reason:" (hint_of_parts (reason_parts status))
  ++ row "solution" "Exit Solutions:" (hint_of_parts (solution_parts status))
  ++ [NDiv None (Some "h1") []]
  ++ row "trigger-message" "Exit Trigger Message:" (trigger_message_body status)
  ++ row "task-role" "Exit Trigger Task Role:" (trigger_role_body status)
  ++ row "container-id" "Exit Trigger Task Index:" (trigger_index_body status)
  ++ row "user-exit-code" "Original User Exit Code:" (user_code_body status).

Definition exit_code_row (status : JobStatus) : node :=
  NHintItem "platform-exit-code" "Exit Code:" [to_node (appExitCode status)].

Definition exit_type_rows (status : JobStatus) : list node :=
  row "type" "Exit Type:"
    (if to_boolean (exit_type_of status)
     then Some [to_node (exit_type_of status)]
     else None).

Definition exit_rows (status : JobStatus) : list node :=
  [exit_code_row status]
  ++ exit_type_rows status
  ++ (if strict_eq (exit_type_of status) "USER_FAILURE"
      then user_failure_rows status
      else [diagnosticsHint]).

Definition exit_bar (state : string) : MessageBarType.t :=
  if String.eqb state "Failed" then MessageBarType.error else MessageBarType.info.

(** ** Presence read as "not undefined"

    The reading of "if present" under which a trigger hint would be emitted
    for every property that is not [undefined], whatever its value. *)

Definition defined {A : Type} (v : js A) : Prop := v <> Undefined.

Definition trigger_hints_by_presence
    (humanize : JobInfo -> string) (this : Summary) : Prop :=
  forall info status,
    jobInfo (props this) = Val info ->
    jobStatus info = Val status ->
    humanize info = "Failed" \/ humanize info = "Stopped" ->
    exit_type_of status = Val "USER_FAILURE" ->
    exists r,
      renderHintMessage humanize this = (Return (Val r), this_state this) /\
      (defined (appExitTriggerMessage status) ->
         find_hint "Exit Trigger Message:" (hints_of r) =
           Some [to_node (appExitTriggerMessage status)]) /\
      (defined (appExitTriggerTaskRoleName status) ->
         find_hint "Exit Trigger Task Role:" (hints_of r) =
           Some [to_node (appExitTriggerTaskRoleName status)]) /\
      (defined (appExitTriggerTaskIndex status) ->
         find_hint "Exit Trigger Task Index:" (hints_of r) =
           Some [to_node (appExitTriggerTaskIndex status)]).

(** ** The exit hints with presence as the specification defines it

    "Present" read as the specification defines it, not absent, whatever
    the value: a part is collected as soon as the property holds a string,
    the empty string included. *)

Definition part_if_given (key : string) (v : js string) : list node :=
  match v with
  | Val s => [NDiv (Some key) None [NText s]]
  | _ => []
  end.

Definition claimed_reason_parts (status : JobStatus) (code : Z) : list node :=
  part_if_given "spec-reason" (js_and (appExitSpec status) ExitSpec.reason)
  ++ (if Z.ltb 0 code
      then part_if_given "runtime-reason" (js_and (runtime_of status) Runtime.reason)
      else part_if_given "launcher-reason" (launcher_of status)).

Definition claimed_solution_parts (status : JobStatus) : list node :=
  part_if_given "runtime-solution" (js_and (runtime_of status) Runtime.solution)
  ++ match js_and (appExitSpec status) ExitSpec.solution with
     | Val entries => mapi solution_entry entries
     | _ => []
     end.

(** The Exit Reason hint is emitted if and only if one of its parts is
    present. *)
Definition exit_reason_by_presence
    (humanize : JobInfo -> string) (this : Summary) : Prop :=
  forall info status code,
    jobInfo (props this) = Val info ->
    jobStatus info = Val status ->
    humanize info = "Failed" \/ humanize info = "Stopped" ->
    exit_type_of status = Val "USER_FAILURE" ->
    ToNumber (appExitCode status) = Some code ->
    exists r,
      renderHintMessage humanize this = (Return (Val r), this_state this) /\
      (find_hint "Exit Reason:" (hints_of r) = None <->
       claimed_reason_parts status code = []).

(** The Exit Solutions hint is emitted if and only if the collection of
    present solutions is not empty. *)
Definition exit_solutions_by_presence
    (humanize : JobInfo -> string) (this : Summary) : Prop :=
  forall info status,
    jobInfo (props this) = Val info ->
    jobStatus info = Val status ->
    humanize info = "Failed" \/ humanize info = "Stopped" ->
    exit_type_of status = Val "USER_FAILURE" ->
    exists r,
      renderHintMessage humanize this = (Return (Val r), this_state this) /\
      (find_hint "Exit Solutions:" (hints_of r) = None <->
       claimed_solution_parts status = []).

(** An Exit Type hint is emitted whenever the exit spec has a type. *)
Definition exit_type_by_presence
    (humanize : JobInfo -> string) (this : Summary) : Prop :=
  forall info status,
    jobInfo (props this) = Val info ->
    jobStatus info = Val status ->
    humanize info = "Failed" \/ humanize info = "Stopped" ->
    exists r,
      renderHintMessage humanize this = (Return (Val r), this_state this) /\
      (forall spec ty,
         appExitSpec status = Val spec ->
         ExitSpec.type spec = Val ty ->
         find_hint "Exit Type:" (hints_of r) = Some [NText ty]).

(** ** Sample jobs *)

(** A stand-in for [getHumanizedJobStateString] in the examples: it takes
    the [state] property to hold the humanized state already. *)
Definition sample_humanize (jobInfo : JobInfo) : string :=
  match baseGet (jobStatus jobInfo) state with
  | Val s => s
  | _ => "Unknown"
  end.

Definition initial_state : State := mkState Null EmptyString 10000.

Definition summary_of (jobInfo : js JobInfo) : Summary :=
  mkSummary (mkProps Undefined jobInfo false) initial_state.

Definition job_of (status : JobStatus) : JobInfo :=
  mkJobInfo (Val "job-1") (Val status).

Definition no_exit_info (st : string) (code : js Z) : JobStatus :=
  mkJobStatus (Val st) code Undefined Undefined Undefined
              Undefined Undefined Undefined Undefined.

(** state Failed, exit code 1, a user failure with static reason R1 and
    two static solutions, runtime reason R2 and runtime solution S1. *)
Definition user_failure_status : JobStatus :=
  mkJobStatus (Val "Failed") (Val 1%Z) (Val "diagnostics")
    (Val (ExitSpec.mk (Val "USER_FAILURE") (Val "R1") (Val ["T1"; "T2"])))
    (Val (ExitMessages.mk (Val (Runtime.mk (Val "R2") (Val "S1") (Val 0%Z)))
                           (Val "L1")))
    (Val "task failed") (Val "worker") (Val 0%Z) Undefined.

(** A user failure whose trigger message is the empty string. *)
Definition empty_trigger_status : JobStatus :=
  mkJobStatus (Val "Failed") (Val 1%Z) Undefined
    (Val (ExitSpec.mk (Val "USER_FAILURE") Undefined Undefined))
    Undefined
    (Val EmptyString) Undefined Undefined Undefined.

(** state Failed, exit code 0, a user failure with a launcher message L1
    and a runtime reason R2. *)
Definition launcher_status : JobStatus :=
  mkJobStatus (Val "Failed") (Val 0%Z) Undefined
    (Val (ExitSpec.mk (Val "USER_FAILURE") Undefined Undefined))
    (Val (ExitMessages.mk (Val (Runtime.mk (Val "R2") Undefined Undefined))
                           (Val "L1")))
    Undefined Undefined Undefined Undefined.

(** A user failure whose static reason is the empty string. *)
Definition empty_reason_status : JobStatus :=
  mkJobStatus (Val "Failed") (Val 1%Z) Undefined
    (Val (ExitSpec.mk (Val "USER_FAILURE") (Val EmptyString) Undefined))
    Undefined
    Undefined Undefined Undefined Undefined.

(** A user failure whose runtime solution is the empty string. *)
Definition empty_solution_status : JobStatus :=
  mkJobStatus (Val "Failed") (Val 1%Z) Undefined
    (Val (ExitSpec.mk (Val "USER_FAILURE") Undefined Undefined))
    (Val (ExitMessages.mk
            (Val (Runtime.mk Undefined (Val EmptyString) Undefined))
            Undefined))
    Undefined Undefined Undefined Undefined.

(** A Failed job whose exit type is the empty string. *)
Definition empty_type_status : JobStatus :=
  mkJobStatus (Val "Failed") (Val 1%Z) Undefined
    (Val (ExitSpec.mk (Val EmptyString) Undefined Undefined))
    Undefined
    Undefined Undefined Undefined Undefined.

Definition waiting_status (retries : js Z) : JobStatus :=
  mkJobStatus (Val "Waiting") Undefined Undefined Undefined Undefined
              Undefined Undefined Undefined
              (Val (RetryDetails.mk retries)).


(** A component with other props and another state than [summary_of]. *)
Definition busy_summary_of (jobInfo : js JobInfo) : Summary :=
  mkSummary (mkProps (Val "summary") jobInfo true)
            (mkState (Val (mkMonacoProps "json" (Val "{}"))) "Job Config" 0).

(** ** More of [render] and of the rendered rows *)

(** [isOpen={!isNil(monacoProps)}] of the Monaco panel. *)
Definition monacoPanelIsOpen (s : State) : bool :=
  negb (isNil (monacoProps s)).

(** [interval={autoReloadInterval === 0 ? null : autoReloadInterval}] of
    the timer. *)
Definition timerInterval (s : State) : js Z :=
  if Z.eqb (autoReloadInterval s) 0 then Null else Val (autoReloadInterval s).

(** [disabled={isNil(jobInfo.jobStatus.appExitDiagnostics)}] of the
    "View Exit Diagnostics" link. *)
Definition viewExitDiagnosticsDisabled (p : Props) : outcome bool :=
  obind (member (jobInfo p) "jobStatus" jobStatus) (fun status =>
  obind (member status "appExitDiagnostics" appExitDiagnostics) (fun diagnostics =>
  Return (isNil diagnostics))).

(** The headers of the hint rows, in order. *)
Fixpoint row_headers (items : list node) : list string :=
  match items with
  | [] => []
  | NHintItem _ h _ :: rest => h :: row_headers rest
  | _ :: rest => row_headers rest
  end.

(** The React keys of the elements of an array that have one, in order. *)
Fixpoint row_keys (items : list node) : list string :=
  match items with
  | [] => []
  | NHintItem k _ _ :: rest => k :: row_keys rest
  | NDiv (Some k) _ _ :: rest => k :: row_keys rest
  | _ :: rest => row_keys rest
  end.

(** [subseq l1 l2]: [l1] is [l2] with some elements left out. *)
Fixpoint subseq (l1 l2 : list string) {struct l2} : bool :=
  match l1, l2 with
  | [], _ => true
  | _ :: _, [] => false
  | x :: r1, y :: r2 => if String.eqb x y then subseq r1 r2 else subseq l1 r2
  end.

(** The order in which [renderHintMessage] and [getUserFailureHintItems]
    push the rows of a Failed or Stopped job. *)
Definition exit_headers : list string :=
  [ "Exit Code:"; "Exit Type:"; "Exit Reason:"; "Exit Solutions:";
    "Exit Trigger Message:"; "Exit Trigger Task Role:";
    "Exit Trigger Task Index:"; "Original User Exit Code:" ].

Definition exit_keys : list string :=
  [ "platform-exit-code"; "type"; "reason"; "solution";
    "trigger-message"; "task-role"; "container-id"; "user-exit-code" ].

(** The spacer between the reason and solution rows and the trigger rows. *)
Definition spacer : node := NDiv None (Some "h1") [].

(** state Failed, a user failure without an exit code, with a launcher
    message L1 and a runtime reason R2. *)
Definition no_code_status : JobStatus :=
  mkJobStatus (Val "Failed") Undefined Undefined
    (Val (ExitSpec.mk (Val "USER_FAILURE") Undefined Undefined))
    (Val (ExitMessages.mk (Val (Runtime.mk (Val "R2") Undefined Undefined))
                           (Val "L1")))
    Undefined Undefined Undefined Undefined.

(** * Properties *)

Section Properties.

(** Any implementation of [getHumanizedJobStateString]. *)
Variable humanize : JobInfo -> string.


(** ** Lists of hint rows *)

Lemma find_hint_app header l1 l2 :
  find_hint header (l1 ++ l2) =
  match find_hint header l1 with
  | Some body => Some body
  | None => find_hint header l2
  end.
Proof.
  induction l1 as [|n l1 IH]; cbn; [reflexivity|].
  destruct n; auto.
  destruct (String.eqb header0 header); auto.
Qed.

Lemma find_hint_row header key h body :
  find_hint header (row key h body) =
  if String.eqb h header then body else None.
Proof.
  destruct body; cbn; destruct (String.eqb h header); reflexivity.
Qed.

(** Turns the outermost [let] of the left-hand side into a local
    definition, so that the goal keeps the shape of the source. *)
Ltac intro_let :=
  lazymatch goal with
  | |- (let x := ?v in @?b x) = ?r =>
      change (let x := v in (b x = r)); cbv beta; intro
  end.

Ltac case_ifs :=
  repeat match goal with
         | |- context [if ?b then _ else _] => destruct b
         end.

Lemma getUserFailureHintItems_rows jobInfo status :
  jobStatus jobInfo = Val status ->
  getUserFailureHintItems jobInfo = Return (user_failure_rows status).
Proof.
  intros Hs.
  destruct jobInfo as [nm st]; cbn in Hs; subst st.
  cbv beta iota delta
    [getUserFailureHintItems get2 get3 member obind baseGet jobStatus].
  repeat intro_let.
  assert (Ereason : reason1 = reason_parts status).
  { subst reason1 reason0 reason spec runtimeOutput.
    unfold reason_parts, part_if_present, runtime_of, launcher_of, baseGet, push.
    cbv zeta. case_ifs; reflexivity. }
  assert (Esolution : solution1 = solution_parts status).
  { subst solution1 solution0 solution spec runtimeOutput.
    unfold solution_parts, part_if_present, runtime_of, baseGet, push, push_all.
    destruct (js_and (appExitSpec status) ExitSpec.solution);
      case_ifs; cbn [app]; rewrite ?app_nil_r; reflexivity. }
  assert (E1 : result1 =
               row "reason" "Exit Reason:" (hint_of_parts (reason_parts status))
               ++ row "solution" "Exit Solutions:"
                    (hint_of_parts (solution_parts status))).
  { subst result1 result0 result. rewrite Ereason, Esolution.
    destruct (reason_parts status), (solution_parts status); reflexivity. }
  assert (E5 : result5 =
               result2
               ++ row "trigger-message" "Exit Trigger Message:"
                    (trigger_message_body status)
               ++ row "task-role" "Exit Trigger Task Role:"
                    (trigger_role_body status)
               ++ row "container-id" "Exit Trigger Task Index:"
                    (trigger_index_body status)).
  { subst result5 result4 result3 message role idx.
    unfold trigger_message_body, trigger_role_body, trigger_index_body, push.
    destruct (isNil (appExitTriggerTaskIndex status)); cbn [negb];
      case_ifs; cbn [row app]; rewrite <- ?app_assoc, ?app_nil_r;
      reflexivity. }
  assert (E6 : result6 =
               result5
               ++ row "user-exit-code" "Original User Exit Code:"
                    (user_code_body status)).
  { subst result6 runtimeOutput.
    unfold user_code_body, runtime_of, baseGet, push.
    destruct (match appExitMessages status with
              | Val a => ExitMessages.runtime a
              | _ => Undefined
              end);
      cbv zeta; try destruct (isNil (Runtime.originalUserExitCode a));
      cbn [negb row]; rewrite ?app_nil_r; reflexivity. }
  rewrite E6, E5. subst result2. rewrite E1.
  unfold user_failure_rows, push.
  f_equal. rewrite <- !app_assoc. reflexivity.
Qed.

(** ** The three branches of [renderHintMessage] *)

Lemma renderHintMessage_no_jobInfo this :
  to_boolean (jobInfo (props this)) = false ->
  renderHintMessage humanize this = (Return Undefined, this_state this).
Proof.
  unfold renderHintMessage, bind, readProps, ret.
  destruct (jobInfo (props this)); cbn; intros H;
    [reflexivity | reflexivity | discriminate].
Qed.

Lemma renderHintMessage_exited this info status :
  jobInfo (props this) = Val info ->
  jobStatus info = Val status ->
  humanize info = "Failed" \/ humanize info = "Stopped" ->
  renderHintMessage humanize this =
  (Return (Val (NMessageBar (exit_bar (humanize info))
                  [NDiv None None [NArr (exit_rows status)]])),
   this_state this).
Proof.
  intros Hi Hs Hst.
  unfold renderHintMessage, bind, readProps, ret, lift.
  rewrite Hi.
  assert (Hb : (String.eqb (humanize info) "Failed"
                || String.eqb (humanize info) "Stopped") = true)
    by (destruct Hst as [-> | ->]; reflexivity).
  rewrite Hb, Hs. cbn [member props this_state].
  unfold exit_rows, exit_type_rows, exit_code_row, exit_bar, push, push_all.
  fold (exit_type_of status).
  destruct (strict_eq (exit_type_of status) "USER_FAILURE").
  - rewrite (getUserFailureHintItems_rows info Hs).
    destruct (to_boolean (exit_type_of status)); reflexivity.
  - destruct (to_boolean (exit_type_of status)); reflexivity.
Qed.

Lemma renderHintMessage_waiting this info :
  jobInfo (props this) = Val info ->
  humanize info = "Waiting" ->
  renderHintMessage humanize this =
  (Return
     (if js_ge (get3 jobStatus retryDetails RetryDetails.resource info) 3
      then Val (NMessageBar MessageBarType.warning
                  [NDiv None None
                     [NHintItem "conflict-retry-count" "Conflict Count:"
                        [to_node (get3 jobStatus retryDetails
                                    RetryDetails.resource info)];
                      resolutionHint]])
      else Undefined),
   this_state this).
Proof.
  intros Hi Hst.
  unfold renderHintMessage, bind, readProps, ret.
  rewrite Hi, Hst. cbn.
  destruct (js_ge _ 3); reflexivity.
Qed.

Lemma renderHintMessage_other this info :
  jobInfo (props this) = Val info ->
  humanize info <> "Failed" ->
  humanize info <> "Stopped" ->
  humanize info <> "Waiting" ->
  renderHintMessage humanize this = (Return Undefined, this_state this).
Proof.
  intros Hi HF HS HW.
  apply String.eqb_neq in HF, HS, HW.
  unfold renderHintMessage, bind, readProps, ret.
  rewrite Hi, HF, HS, HW. reflexivity.
Qed.

Lemma renderHintMessage_depends_on_jobInfo this this' :
  jobInfo (props this) = jobInfo (props this') ->
  renderHintMessage humanize this =
  (fst (renderHintMessage humanize this'), this_state this).
Proof.
  intros H.
  unfold renderHintMessage, bind, readProps, ret, lift.
  cbn [props this_state]. rewrite H.
  destruct (jobInfo (props this')) as [| |info]; try reflexivity.
  destruct (String.eqb (humanize info) "Failed"
            || String.eqb (humanize info) "Stopped").
  - destruct (jobStatus info) as [| |status]; try reflexivity.
    cbn [member].
    destruct (strict_eq (js_and (appExitSpec status) ExitSpec.type) "USER_FAILURE");
      [destruct (getUserFailureHintItems info) | ]; reflexivity.
  - destruct (String.eqb (humanize info) "Waiting"); [|reflexivity].
    destruct (js_ge _ 3); reflexivity.
Qed.

Lemma exit_rows_hints ty status :
  hints_of (NMessageBar ty [NDiv None None [NArr (exit_rows status)]]) =
  exit_rows status.
Proof. reflexivity. Qed.

Lemma to_boolean_nonempty (s : string) :
  s <> EmptyString -> to_boolean (Val s) = true.
Proof.
  intros H. apply String.eqb_neq in H.
  change (negb (String.eqb s EmptyString) = true). now rewrite H.
Qed.

(** ** States without a hint *)

(** Claim C1.  When the humanized state of the job is none of Failed,
    Stopped and Waiting, [renderHintMessage] returns [undefined]: there is
    no message bar, hence no hint and no severity.  The same holds when
    there is no job at all. *)
Theorem renderHintMessage_other_state_nothing this :
  (forall info, jobInfo (props this) = Val info ->
     humanize info <> "Failed" /\
     humanize info <> "Stopped" /\
     humanize info <> "Waiting") ->
  renderHintMessage humanize this = (Return Undefined, this_state this).
Proof.
  intros H.
  destruct (jobInfo (props this)) as [| |info] eqn:Hi.
  - apply renderHintMessage_no_jobInfo. now rewrite Hi.
  - apply renderHintMessage_no_jobInfo. now rewrite Hi.
  - destruct (H info eq_refl) as (HF & HS & HW).
    now apply renderHintMessage_other with info.
Qed.

(** ** Failed and Stopped jobs *)

(** Claim C5.  For a Failed or Stopped job the first hint is "Exit Code"
    and carries [appExitCode]; the message bar is of type [error] when the
    job Failed and of type [info] when it Stopped. *)
Theorem exit_code_first_and_severity this info status :
  jobInfo (props this) = Val info ->
  jobStatus info = Val status ->
  humanize info = "Failed" \/ humanize info = "Stopped" ->
  exists r,
    renderHintMessage humanize this = (Return (Val r), this_state this) /\
    hd_error (hints_of r) =
      Some (NHintItem "platform-exit-code" "Exit Code:"
              [to_node (appExitCode status)]) /\
    (humanize info = "Failed" -> severity_of r = Some MessageBarType.error) /\
    (humanize info = "Stopped" -> severity_of r = Some MessageBarType.info).
Proof.
  intros Hi Hs Hst.
  eexists. split; [exact (renderHintMessage_exited this Hi Hs Hst)|].
  unfold exit_bar.
  repeat split.
  - intros ->. reflexivity.
  - intros ->. reflexivity.
Qed.

(** Claim C4, as the code has it.  For a Failed or Stopped job: a type
    that is a non-empty string gives an "Exit Type" hint with that type, and
    a missing, [null] or empty type gives none; when the type is
    USER_FAILURE the rows of [getUserFailureHintItems] (its reason,
    solution and trigger rows around the spacer) follow the exit code and
    the exit type, and the diagnostics hint is not among them; in every
    other case (no exit spec, no type, another type) one generic hint
    follows instead, under the header "Exit Solutions:", which asks to send
    the exit diagnostics, linked to [showExitDiagnostics], to the
    administrator. *)
Theorem exit_type_and_branch this info status :
  jobInfo (props this) = Val info ->
  jobStatus info = Val status ->
  humanize info = "Failed" \/ humanize info = "Stopped" ->
  let referral :=
    [ NText "Please send the ";
      NLink showExitDiagnostics_bound [NText "exit diagnostics"];
      NText " to your administrator for further investigation." ] in
  let generic := NHintItem "solution" "Exit Solutions:" referral in
  exists r,
    renderHintMessage humanize this = (Return (Val r), this_state this) /\
    (forall ty, exit_type_of status = Val ty -> ty <> EmptyString ->
       find_hint "Exit Type:" (hints_of r) = Some [NText ty]) /\
    (to_boolean (exit_type_of status) = false ->
       find_hint "Exit Type:" (hints_of r) = None) /\
    (exit_type_of status = Val "USER_FAILURE" ->
       getUserFailureHintItems info = Return (user_failure_rows status) /\
       hints_of r =
         [exit_code_row status;
          NHintItem "type" "Exit Type:" [NText "USER_FAILURE"]]
         ++ user_failure_rows status /\
       In (NDiv None (Some "h1") []) (hints_of r) /\
       ~ In generic (hints_of r)) /\
    (exit_type_of status <> Val "USER_FAILURE" ->
       hints_of r =
         exit_code_row status
         :: (if to_boolean (exit_type_of status)
             then [NHintItem "type" "Exit Type:" [to_node (exit_type_of status)]]
             else [])
         ++ [generic] /\
       find_hint "Exit Solutions:" (hints_of r) = Some referral /\
       ~ In (NDiv None (Some "h1") []) (hints_of r) /\
       (to_boolean (exit_type_of status) = false ->
          hints_of r = [exit_code_row status; generic])).
Proof.
  intros Hi Hs Hst referral generic.
  eexists. split; [exact (renderHintMessage_exited this Hi Hs Hst)|].
  rewrite exit_rows_hints. unfold exit_rows, exit_type_rows.
  split; [|split; [|split]].
  - intros ty Hty Hne. rewrite Hty, (to_boolean_nonempty Hne). reflexivity.
  - intros ->. cbn [row app find_hint exit_code_row].
    destruct (strict_eq (exit_type_of status) "USER_FAILURE"); [|reflexivity].
    unfold user_failure_rows.
    rewrite !find_hint_app, !find_hint_row. reflexivity.
  - intros Hty. rewrite Hty.
    change (to_boolean (Val "USER_FAILURE")) with true.
    change (strict_eq (Val "USER_FAILURE") "USER_FAILURE") with true.
    cbn [row app].
    split; [exact (getUserFailureHintItems_rows info Hs)|].
    split; [reflexivity|]. split.
    + right. right. unfold user_failure_rows.
      apply in_or_app. right. apply in_or_app. right. left. reflexivity.
    + unfold generic, referral, user_failure_rows, exit_code_row, hint_of_parts,
        trigger_message_body, trigger_role_body, trigger_index_body.
      destruct (reason_parts status), (solution_parts status),
        (to_boolean (appExitTriggerMessage status)),
        (to_boolean (appExitTriggerTaskRoleName status)),
        (isNil (appExitTriggerTaskIndex status)),
        (user_code_body status);
        cbn [row app In]; intuition discriminate.
  - intros Hty.
    assert (E : strict_eq (exit_type_of status) "USER_FAILURE" = false).
    { destruct (exit_type_of status) as [| |ty]; try reflexivity.
      cbn. apply String.eqb_neq. congruence. }
    rewrite E. unfold generic, referral, diagnosticsHint, exit_code_row.
    destruct (to_boolean (exit_type_of status));
      cbn [row app]; repeat split; try reflexivity;
      try (cbn [In]; intuition discriminate).
Qed.

(** ** User failures *)


Lemma find_hint_exit_rows_user_failure header status :
  exit_type_of status = Val "USER_FAILURE" ->
  String.eqb "Exit Code:" header = false ->
  String.eqb "Exit Type:" header = false ->
  find_hint header (exit_rows status) =
  find_hint header (user_failure_rows status).
Proof.
  intros Hty H1 H2.
  unfold exit_rows, exit_type_rows, exit_code_row. rewrite Hty.
  change (to_boolean (Val "USER_FAILURE")) with true.
  change (strict_eq (Val "USER_FAILURE") "USER_FAILURE") with true.
  cbn [row app find_hint]. rewrite H1, H2. reflexivity.
Qed.

Lemma find_exit_reason status :
  find_hint "Exit Reason:" (user_failure_rows status) =
  hint_of_parts (reason_parts status).
Proof.
  unfold user_failure_rows.
  rewrite !find_hint_app, !find_hint_row. cbn.
  destruct (hint_of_parts (reason_parts status)); reflexivity.
Qed.

Lemma find_exit_solutions status :
  find_hint "Exit Solutions:" (user_failure_rows status) =
  hint_of_parts (solution_parts status).
Proof.
  unfold user_failure_rows.
  rewrite !find_hint_app, !find_hint_row. cbn.
  destruct (hint_of_parts (solution_parts status)); reflexivity.
Qed.

Lemma find_trigger_message status :
  find_hint "Exit Trigger Message:" (user_failure_rows status) =
  trigger_message_body status.
Proof.
  unfold user_failure_rows.
  rewrite !find_hint_app, !find_hint_row. cbn.
  destruct (trigger_message_body status); reflexivity.
Qed.

Lemma find_trigger_role status :
  find_hint "Exit Trigger Task Role:" (user_failure_rows status) =
  trigger_role_body status.
Proof.
  unfold user_failure_rows.
  rewrite !find_hint_app, !find_hint_row. cbn.
  destruct (trigger_role_body status); reflexivity.
Qed.

Lemma find_trigger_index status :
  find_hint "Exit Trigger Task Index:" (user_failure_rows status) =
  trigger_index_body status.
Proof.
  unfold user_failure_rows.
  rewrite !find_hint_app, !find_hint_row. cbn.
  destruct (trigger_index_body status); reflexivity.
Qed.

Lemma reason_parts_numeric_code status code :
  ToNumber (appExitCode status) = Some code ->
  reason_parts status = nonempty_reason_parts status code.
Proof.
  intros H. unfold reason_parts, nonempty_reason_parts, js_gt.
  rewrite H. reflexivity.
Qed.

Lemma hint_of_parts_None parts : hint_of_parts parts = None <-> parts = [].
Proof. destruct parts; cbn; split; congruence. Qed.

Lemma part_if_present_key key key' v :
  key <> key' ->
  Forall (fun part => div_key part <> Some key') (part_if_present key v).
Proof.
  intros Hk. unfold part_if_present.
  destruct (to_boolean v); repeat constructor.
  cbn. congruence.
Qed.

(** Claim C2, as the code has it.  For a Failed or Stopped user failure
    whose exit code is a number ([null] compares as 0), the "Exit Reason"
    hint holds, in this order, the static reason of the exit spec, then the
    runtime reason when the code is positive, or else the launcher message,
    each one only when it is a non-empty string (the truthiness test of the
    source; an empty string is left out like a missing one); the hint is
    emitted exactly when one of these parts is collected; with a code that
    is not positive the parts come from the exit spec and the launcher only,
    none from the runtime. *)
Theorem exit_reason_hint this info status code :
  jobInfo (props this) = Val info ->
  jobStatus info = Val status ->
  humanize info = "Failed" \/ humanize info = "Stopped" ->
  exit_type_of status = Val "USER_FAILURE" ->
  ToNumber (appExitCode status) = Some code ->
  exists r,
    renderHintMessage humanize this = (Return (Val r), this_state this) /\
    find_hint "Exit Reason:" (hints_of r) =
      hint_of_parts (nonempty_reason_parts status code) /\
    (find_hint "Exit Reason:" (hints_of r) = None <->
     nonempty_reason_parts status code = []) /\
    ((code <= 0)%Z ->
       nonempty_reason_parts status code =
         part_if_present "spec-reason" (js_and (appExitSpec status) ExitSpec.reason)
         ++ part_if_present "launcher-reason" (launcher_of status) /\
       Forall (fun part => div_key part <> Some "runtime-reason")
              (nonempty_reason_parts status code)).
Proof.
  intros Hi Hs Hst Hty Hcode.
  eexists. split; [exact (renderHintMessage_exited this Hi Hs Hst)|].
  rewrite exit_rows_hints.
  rewrite find_hint_exit_rows_user_failure by (exact Hty || reflexivity).
  rewrite find_exit_reason, (reason_parts_numeric_code status Hcode).
  split; [reflexivity|]. split; [apply hint_of_parts_None|].
  intros Hle. apply Z.ltb_ge in Hle.
  unfold nonempty_reason_parts. rewrite Hle.
  split; [reflexivity|].
  apply Forall_app. split; apply part_if_present_key; discriminate.
Qed.

Lemma texts_of_app l1 l2 : texts_of (l1 ++ l2) = texts_of l1 ++ texts_of l2.
Proof.
  induction l1 as [|n l1 IH]; cbn; [reflexivity|].
  destruct n; auto.
  destruct children as [|c [|c' cs]]; auto;
    destruct c; cbn; auto.
  now rewrite IH.
Qed.

Lemma texts_of_mapi_from entries :
  forall i, texts_of (mapi_from solution_entry i entries) = entries.
Proof.
  induction entries as [|x entries IH]; intros i; cbn; [reflexivity|].
  now rewrite IH.
Qed.

Lemma length_mapi_from {A B : Type} (f : A -> nat -> B) l :
  forall i, length (mapi_from f i l) = length l.
Proof.
  induction l as [|x l IH]; intros i; cbn; [reflexivity|].
  now rewrite IH.
Qed.

Lemma solution_parts_texts status :
  texts_of (solution_parts status) = nonempty_solution_texts status /\
  length (solution_parts status) = length (nonempty_solution_texts status).
Proof.
  unfold solution_parts, nonempty_solution_texts, part_if_present, mapi.
  rewrite texts_of_app, !length_app.
  destruct (js_and (runtime_of status) Runtime.solution) as [| |s];
    destruct (js_and (appExitSpec status) ExitSpec.solution) as [| |entries];
    cbn; rewrite ?texts_of_mapi_from, ?length_mapi_from;
    try (split; reflexivity);
    unfold to_boolean, ToBoolean_string;
    destruct (String.eqb s EmptyString); cbn;
    rewrite ?texts_of_mapi_from, ?length_mapi_from; split; reflexivity.
Qed.

(** Claim C3, as the code has it.  For a Failed or Stopped user failure,
    the "Exit Solutions" hint holds the runtime solution first, when it is a
    non-empty string (an empty one is left out like a missing one), and then
    every entry of the solution list of the exit spec in its original
    order; the hint is emitted exactly when this collection is not empty. *)
Theorem exit_solutions_hint this info status :
  jobInfo (props this) = Val info ->
  jobStatus info = Val status ->
  humanize info = "Failed" \/ humanize info = "Stopped" ->
  exit_type_of status = Val "USER_FAILURE" ->
  exists r,
    renderHintMessage humanize this = (Return (Val r), this_state this) /\
    find_hint "Exit Solutions:" (hints_of r) =
      hint_of_parts (solution_parts status) /\
    texts_of (solution_parts status) = nonempty_solution_texts status /\
    length (solution_parts status) = length (nonempty_solution_texts status) /\
    (find_hint "Exit Solutions:" (hints_of r) = None <->
     nonempty_solution_texts status = []).
Proof.
  intros Hi Hs Hst Hty.
  eexists. split; [exact (renderHintMessage_exited this Hi Hs Hst)|].
  rewrite exit_rows_hints.
  rewrite find_hint_exit_rows_user_failure by (exact Hty || reflexivity).
  rewrite find_exit_solutions.
  destruct (solution_parts_texts status) as [Ht Hl].
  repeat split; auto.
  - intros H. apply hint_of_parts_None in H. rewrite H in Hl.
    destruct (nonempty_solution_texts status); [reflexivity | discriminate].
  - intros H. apply hint_of_parts_None. rewrite H in Hl.
    destruct (solution_parts status); [reflexivity | discriminate].
Qed.

(** Claim C6, as the code has it.  For a Failed or Stopped user failure
    the three trigger hints are emitted independently of each other: "Exit
    Trigger Message" and "Exit Trigger Task Role" when the property is a
    non-empty string (the truthiness test of the source), and "Exit Trigger
    Task Index" when the property is neither [undefined] nor [null] (the
    [isNil] test), so that the index 0 gives a hint with value 0. *)
Theorem trigger_hints this info status :
  jobInfo (props this) = Val info ->
  jobStatus info = Val status ->
  humanize info = "Failed" \/ humanize info = "Stopped" ->
  exit_type_of status = Val "USER_FAILURE" ->
  exists r,
    renderHintMessage humanize this = (Return (Val r), this_state this) /\
    (forall m, appExitTriggerMessage status = Val m -> m <> EmptyString ->
       find_hint "Exit Trigger Message:" (hints_of r) = Some [NText m]) /\
    (to_boolean (appExitTriggerMessage status) = false ->
       find_hint "Exit Trigger Message:" (hints_of r) = None) /\
    (forall n, appExitTriggerTaskRoleName status = Val n -> n <> EmptyString ->
       find_hint "Exit Trigger Task Role:" (hints_of r) = Some [NText n]) /\
    (to_boolean (appExitTriggerTaskRoleName status) = false ->
       find_hint "Exit Trigger Task Role:" (hints_of r) = None) /\
    (forall i, appExitTriggerTaskIndex status = Val i ->
       find_hint "Exit Trigger Task Index:" (hints_of r) = Some [NNum i]) /\
    (appExitTriggerTaskIndex status = Val 0%Z ->
       find_hint "Exit Trigger Task Index:" (hints_of r) = Some [NNum 0]) /\
    (isNil (appExitTriggerTaskIndex status) = true ->
       find_hint "Exit Trigger Task Index:" (hints_of r) = None).
Proof.
  intros Hi Hs Hst Hty.
  eexists. split; [exact (renderHintMessage_exited this Hi Hs Hst)|].
  rewrite exit_rows_hints.
  rewrite !find_hint_exit_rows_user_failure by (exact Hty || reflexivity).
  rewrite find_trigger_message, find_trigger_role, find_trigger_index.
  unfold trigger_message_body, trigger_role_body, trigger_index_body.
  repeat split.
  - intros m Hm Hne. rewrite Hm, (to_boolean_nonempty Hne). reflexivity.
  - intros ->. reflexivity.
  - intros n Hn Hne. rewrite Hn, (to_boolean_nonempty Hne). reflexivity.
  - intros ->. reflexivity.
  - intros i ->. reflexivity.
  - intros ->. reflexivity.
  - intros ->. reflexivity.
Qed.

(** ** Waiting jobs *)

(** Claim C7.  For a Waiting job: with three or more resource retries the
    message bar is a warning and holds "Conflict Count" with the retry count
    and then the fixed "Resolution" hint, which asks to adjust the resource
    requirement in the job config, linked to [showJobConfig], or to wait
    till other jobs release resources; otherwise (fewer retries, or no count
    at all) nothing is rendered. *)
Theorem waiting_hint this info :
  jobInfo (props this) = Val info ->
  humanize info = "Waiting" ->
  let advice :=
    [ NDiv None None
        [ NText "Please adjust the resource requirement in your ";
          NLink showJobConfig_bound [NText "job config"];
          NText ", or wait till other jobs release more resources back to the system." ] ] in
  (forall n,
     get3 jobStatus retryDetails RetryDetails.resource info = Val n ->
     (3 <= n)%Z ->
     exists r,
       renderHintMessage humanize this = (Return (Val r), this_state this) /\
       severity_of r = Some MessageBarType.warning /\
       find_hint "Conflict Count:" (hints_of r) = Some [NNum n] /\
       find_hint "Resolution:" (hints_of r) = Some advice /\
       hints_of r =
         [NHintItem "conflict-retry-count" "Conflict Count:" [NNum n];
          NHintItem "resolution" "Resolution:" advice]) /\
  ((forall n,
      get3 jobStatus retryDetails RetryDetails.resource info = Val n ->
      (n < 3)%Z) ->
   renderHintMessage humanize this = (Return Undefined, this_state this)).
Proof.
  intros Hi Hst advice.
  rewrite (renderHintMessage_waiting this Hi Hst).
  split.
  - intros n Hn Hle. rewrite Hn.
    apply Z.leb_le in Hle. unfold js_ge, ToNumber. rewrite Hle.
    eexists. split; [reflexivity|]. repeat split.
  - intros H.
    destruct (get3 jobStatus retryDetails RetryDetails.resource info)
      as [| |n]; try reflexivity.
    specialize (H n eq_refl). apply Z.leb_gt in H.
    unfold js_ge, ToNumber. now rewrite H.
Qed.

(** ** Totality and purity *)

(** Claim C8.  When the job, if there is one, has a [jobStatus] record,
    hint derivation does not throw: [renderHintMessage] returns, and so does
    [getUserFailureHintItems], whichever of the optional properties of the
    status are missing. *)
Theorem hint_derivation_never_throws this :
  (forall info, jobInfo (props this) = Val info ->
     exists status, jobStatus info = Val status) ->
  (exists r, renderHintMessage humanize this = (Return r, this_state this)) /\
  (forall info, jobInfo (props this) = Val info ->
     exists items, getUserFailureHintItems info = Return items).
Proof.
  intros H. split.
  - destruct (jobInfo (props this)) as [| |info] eqn:Hi.
    + eexists. apply renderHintMessage_no_jobInfo. now rewrite Hi.
    + eexists. apply renderHintMessage_no_jobInfo. now rewrite Hi.
    + destruct (H info eq_refl) as [status Hs].
      destruct (String.eqb_spec (humanize info) "Failed") as [HF|HF];
        [eexists; exact (renderHintMessage_exited this Hi Hs (or_introl HF))|].
      destruct (String.eqb_spec (humanize info) "Stopped") as [HS|HS];
        [eexists; exact (renderHintMessage_exited this Hi Hs (or_intror HS))|].
      destruct (String.eqb_spec (humanize info) "Waiting") as [HW|HW];
        [eexists; exact (renderHintMessage_waiting this Hi HW)|].
      eexists. exact (renderHintMessage_other this Hi HF HS HW).
  - intros info Hi. destruct (H info Hi) as [status Hs].
    eexists. exact (getUserFailureHintItems_rows info Hs).
Qed.

(** Claim C9.  Hint derivation is a function of the job alone: two
    components with the same [jobInfo] render the same message (or throw the
    same error), whatever their other props and their state, and the state
    of the component is left as it was. *)
Theorem renderHintMessage_pure this this' :
  jobInfo (props this) = jobInfo (props this') ->
  fst (renderHintMessage humanize this) = fst (renderHintMessage humanize this') /\
  snd (renderHintMessage humanize this) = this_state this /\
  snd (renderHintMessage humanize this') = this_state this'.
Proof.
  intros H.
  rewrite (renderHintMessage_depends_on_jobInfo this this' H).
  rewrite (renderHintMessage_depends_on_jobInfo this' this' eq_refl).
  repeat split.
Qed.

(** ** The Stop button *)

(** Claim C10.  The Stop button is enabled exactly when the humanize
    state is Running or Waiting; in particular it is disabled for Failed,
    Stopped and Succeeded jobs. *)
Theorem stop_button_enabled_iff info :
  (stopButtonDisabled humanize info = false <->
   humanize info = "Running" \/ humanize info = "Waiting") /\
  (In (humanize info) ["Failed"; "Stopped"; "Succeeded"] ->
   stopButtonDisabled humanize info = true).
Proof.
  unfold stopButtonDisabled, StoppableStatus. cbn [includes].
  rewrite orb_false_r.
  split.
  - rewrite negb_false_iff, orb_true_iff, !String.eqb_eq.
    split; intros [H|H]; auto.
  - intros [<-|[<-|[<-|[]]]]; reflexivity.
Qed.

End Properties.

(** * The theorems at sample jobs *)

Example renderHintMessage_user_failure :
  renderHintMessage sample_humanize (summary_of (Val (job_of user_failure_status))) =
  (Return
     (Val
        (NMessageBar MessageBarType.error
           [NDiv None None
              [NArr
                 [NHintItem "platform-exit-code" "Exit Code:" [NNum 1];
                  NHintItem "type" "Exit Type:" [NText "USER_FAILURE"];
                  NHintItem "reason" "Exit Reason:"
                    [NArr [NDiv (Some "spec-reason") None [NText "R1"];
                           NDiv (Some "runtime-reason") None [NText "R2"]]];
                  NHintItem "solution" "Exit Solutions:"
                    [NArr [NDiv (Some "runtime-solution") None [NText "S1"];
                           NDiv (Some "spec-reason-0") None [NText "T1"];
                           NDiv (Some "spec-reason-1") None [NText "T2"]]];
                  NDiv None (Some "h1") [];
                  NHintItem "trigger-message" "Exit Trigger Message:"
                    [NText "task failed"];
                  NHintItem "task-role" "Exit Trigger Task Role:" [NText "worker"];
                  NHintItem "container-id" "Exit Trigger Task Index:" [NNum 0];
                  NHintItem "user-exit-code" "Original User Exit Code:"
                    [NNum 0]]]])),
   initial_state).
Proof. reflexivity. Qed.

(** Without a [jobStatus] a Failed job makes [renderHintMessage] throw. *)
Example renderHintMessage_without_jobStatus :
  renderHintMessage (fun _ => "Failed")
    (summary_of (Val (mkJobInfo (Val "job-1") Undefined))) =
  (Throw (TypeError "Cannot read property 'appExitSpec' of undefined"),
   initial_state).
Proof. reflexivity. Qed.

(** A missing exit code compares as NaN and takes the launcher branch. *)
Example reason_parts_without_exit_code :
  reason_parts
    (mkJobStatus (Val "Failed") Undefined Undefined
       (Val (ExitSpec.mk (Val "USER_FAILURE") Undefined Undefined))
       (Val (ExitMessages.mk Undefined (Val "L1")))
       Undefined Undefined Undefined Undefined) =
  [NDiv (Some "launcher-reason") None [NText "L1"]].
Proof. reflexivity. Qed.

(** Unlike hint derivation, opening the diagnostics changes the state. *)
Example showExitDiagnostics_sets_state :
  showExitDiagnostics (summary_of (Val (job_of user_failure_status))) =
  (Return tt,
   mkState (Val (mkMonacoProps "text" (Val "diagnostics")))
           "Exit Diagnostics" 10000).
Proof. reflexivity. Qed.

Lemma renderHintMessage_other_state_nothing_witness :
  renderHintMessage sample_humanize
    (summary_of (Val (job_of (no_exit_info "Running" Undefined)))) =
  (Return Undefined, initial_state).
Proof.
  apply (renderHintMessage_other_state_nothing sample_humanize
           (summary_of (Val (job_of (no_exit_info "Running" Undefined))))).
  intros info H. injection H as <-.
  repeat split; discriminate.
Defined.

Lemma exit_code_first_and_severity_witness :
  exists r,
    renderHintMessage sample_humanize
      (summary_of (Val (job_of (no_exit_info "Stopped" (Val (-1)%Z))))) =
      (Return (Val r), initial_state) /\
    hd_error (hints_of r) =
      Some (NHintItem "platform-exit-code" "Exit Code:" [NNum (-1)]) /\
    ("Stopped" = "Failed" -> severity_of r = Some MessageBarType.error) /\
    ("Stopped" = "Stopped" -> severity_of r = Some MessageBarType.info).
Proof.
  apply (exit_code_first_and_severity sample_humanize
           (summary_of (Val (job_of (no_exit_info "Stopped" (Val (-1)%Z)))))
           (info := job_of (no_exit_info "Stopped" (Val (-1)%Z)))
           (status := no_exit_info "Stopped" (Val (-1)%Z))).
  - reflexivity.
  - reflexivity.
  - right. reflexivity.
Defined.

Lemma exit_reason_hint_witness :
  exists r,
    renderHintMessage sample_humanize (summary_of (Val (job_of launcher_status))) =
      (Return (Val r), initial_state) /\
    find_hint "Exit Reason:" (hints_of r) =
      Some [NArr [NDiv (Some "launcher-reason") None [NText "L1"]]] /\
    Forall (fun part => div_key part <> Some "runtime-reason")
           (nonempty_reason_parts launcher_status 0).
Proof.
  destruct (exit_reason_hint sample_humanize
              (summary_of (Val (job_of launcher_status)))
              (info := job_of launcher_status) (status := launcher_status)
              (code := 0%Z)
              eq_refl eq_refl (or_introl eq_refl) eq_refl eq_refl)
    as (r & Hr & Hfind & _ & Hle).
  exists r. split; [exact Hr|]. split; [exact Hfind|].
  apply Hle. lia.
Defined.

(** Claim C2 as it is worded fails: a static reason that is the empty
    string is present, so one part of the Exit Reason exists, and still no
    "Exit Reason" hint is emitted. *)
Lemma exit_reason_by_presence_fails :
  ~ exit_reason_by_presence sample_humanize
      (summary_of (Val (job_of empty_reason_status))).
Proof.
  intros H.
  destruct (H (job_of empty_reason_status) empty_reason_status 1%Z
              eq_refl eq_refl (or_introl eq_refl) eq_refl eq_refl)
    as (r & Hr & Hiff).
  injection Hr as <-.
  destruct Hiff as [Hnone _].
  specialize (Hnone eq_refl). discriminate Hnone.
Qed.

Lemma exit_solutions_hint_witness :
  exists r,
    renderHintMessage sample_humanize
      (summary_of (Val (job_of user_failure_status))) =
      (Return (Val r), initial_state) /\
    find_hint "Exit Solutions:" (hints_of r) =
      Some [NArr (solution_parts user_failure_status)] /\
    texts_of (solution_parts user_failure_status) = ["S1"; "T1"; "T2"].
Proof.
  destruct (exit_solutions_hint sample_humanize
              (summary_of (Val (job_of user_failure_status)))
              (info := job_of user_failure_status)
              (status := user_failure_status)
              eq_refl eq_refl (or_introl eq_refl) eq_refl)
    as (r & Hr & Hfind & Htexts & _).
  exists r. split; [exact Hr|]. split; [exact Hfind | exact Htexts].
Defined.

(** Claim C3 as it is worded fails: a runtime solution that is the empty
    string is present, so the collection of solutions is not empty, and
    still no "Exit Solutions" hint is emitted. *)
Lemma exit_solutions_by_presence_fails :
  ~ exit_solutions_by_presence sample_humanize
      (summary_of (Val (job_of empty_solution_status))).
Proof.
  intros H.
  destruct (H (job_of empty_solution_status) empty_solution_status
              eq_refl eq_refl (or_introl eq_refl) eq_refl)
    as (r & Hr & Hiff).
  injection Hr as <-.
  destruct Hiff as [Hnone _].
  specialize (Hnone eq_refl). discriminate Hnone.
Qed.

Lemma exit_type_and_branch_witness :
  exists r,
    renderHintMessage sample_humanize
      (summary_of (Val (job_of (no_exit_info "Failed" (Val 1%Z))))) =
      (Return (Val r), initial_state) /\
    hints_of r =
      [NHintItem "platform-exit-code" "Exit Code:" [NNum 1];
       NHintItem "solution" "Exit Solutions:"
         [ NText "Please send the ";
           NLink showExitDiagnostics_bound [NText "exit diagnostics"];
           NText " to your administrator for further investigation." ]] /\
    find_hint "Exit Type:" (hints_of r) = None.
Proof.
  destruct (exit_type_and_branch sample_humanize
              (summary_of (Val (job_of (no_exit_info "Failed" (Val 1%Z)))))
              (info := job_of (no_exit_info "Failed" (Val 1%Z)))
              (status := no_exit_info "Failed" (Val 1%Z))
              eq_refl eq_refl (or_introl eq_refl))
    as (r & Hr & _ & Hnone & _ & Hother).
  exists r. split; [exact Hr|]. split.
  - destruct Hother as (_ & _ & _ & Hplain); [discriminate|].
    apply Hplain. reflexivity.
  - apply Hnone. reflexivity.
Defined.

(** Claim C4 as it is worded fails: an exit type that is the empty string
    is present, and no "Exit Type" hint is emitted for it. *)
Lemma exit_type_by_presence_fails :
  ~ exit_type_by_presence sample_humanize
      (summary_of (Val (job_of empty_type_status))).
Proof.
  intros H.
  destruct (H (job_of empty_type_status) empty_type_status
              eq_refl eq_refl (or_introl eq_refl))
    as (r & Hr & Htype).
  injection Hr as <-.
  specialize (Htype (ExitSpec.mk (Val EmptyString) Undefined Undefined)
                    EmptyString eq_refl eq_refl).
  discriminate Htype.
Qed.

(** Claim C6 as it is worded fails: a trigger message that is the empty
    string is not [undefined], and no "Exit Trigger Message" hint is
    emitted for it. *)
Lemma trigger_hints_by_presence_fails :
  ~ trigger_hints_by_presence sample_humanize
      (summary_of (Val (job_of empty_trigger_status))).
Proof.
  intros H.
  destruct (H (job_of empty_trigger_status) empty_trigger_status
              eq_refl eq_refl (or_introl eq_refl) eq_refl)
    as (r & Hr & Hmessage & _).
  injection Hr as <-.
  assert (Hd : defined (appExitTriggerMessage empty_trigger_status))
    by discriminate.
  specialize (Hmessage Hd). discriminate Hmessage.
Qed.

Lemma trigger_hints_witness :
  exists r,
    renderHintMessage sample_humanize
      (summary_of (Val (job_of user_failure_status))) =
      (Return (Val r), initial_state) /\
    find_hint "Exit Trigger Message:" (hints_of r) = Some [NText "task failed"] /\
    find_hint "Exit Trigger Task Role:" (hints_of r) = Some [NText "worker"] /\
    find_hint "Exit Trigger Task Index:" (hints_of r) = Some [NNum 0].
Proof.
  destruct (trigger_hints sample_humanize
              (summary_of (Val (job_of user_failure_status)))
              (info := job_of user_failure_status)
              (status := user_failure_status)
              eq_refl eq_refl (or_introl eq_refl) eq_refl)
    as (r & Hr & Hmessage & _ & Hrole & _ & _ & Hzero & _).
  exists r. split; [exact Hr|]. split; [|split].
  - apply Hmessage; [reflexivity | discriminate].
  - apply Hrole; [reflexivity | discriminate].
  - apply Hzero. reflexivity.
Defined.

Lemma waiting_hint_witness :
  (exists r,
     renderHintMessage sample_humanize
       (summary_of (Val (job_of (waiting_status (Val 3%Z))))) =
       (Return (Val r), initial_state) /\
     severity_of r = Some MessageBarType.warning /\
     find_hint "Conflict Count:" (hints_of r) = Some [NNum 3] /\
     find_hint "Resolution:" (hints_of r) =
       Some [ NDiv None None
                [ NText "Please adjust the resource requirement in your ";
                  NLink showJobConfig_bound [NText "job config"];
                  NText ", or wait till other jobs release more resources back to the system." ] ]) /\
  renderHintMessage sample_humanize
    (summary_of (Val (job_of (waiting_status (Val 2%Z))))) =
    (Return Undefined, initial_state).
Proof.
  split.
  - destruct (waiting_hint sample_humanize
                (summary_of (Val (job_of (waiting_status (Val 3%Z)))))
                (info := job_of (waiting_status (Val 3%Z)))
                eq_refl eq_refl)
      as [Hmany _].
    destruct (Hmany 3%Z eq_refl ltac:(lia))
      as (r & Hr & Hsev & Hcount & Hadvice & _).
    exists r. split; [exact Hr|]. split; [exact Hsev|].
    split; [exact Hcount | exact Hadvice].
  - destruct (waiting_hint sample_humanize
                (summary_of (Val (job_of (waiting_status (Val 2%Z)))))
                (info := job_of (waiting_status (Val 2%Z)))
                eq_refl eq_refl)
      as [_ Hfew].
    apply Hfew. intros n Hn. injection Hn as <-. lia.
Defined.

Lemma hint_derivation_never_throws_witness :
  exists r,
    renderHintMessage sample_humanize
      (summary_of (Val (job_of (no_exit_info "Failed" Undefined)))) =
    (Return r, initial_state).
Proof.
  apply (hint_derivation_never_throws sample_humanize
           (summary_of (Val (job_of (no_exit_info "Failed" Undefined))))).
  intros info H. injection H as <-.
  exists (no_exit_info "Failed" Undefined). reflexivity.
Defined.

Lemma renderHintMessage_pure_witness :
  fst (renderHintMessage sample_humanize
         (summary_of (Val (job_of user_failure_status)))) =
  fst (renderHintMessage sample_humanize
         (busy_summary_of (Val (job_of user_failure_status)))) /\
  snd (renderHintMessage sample_humanize
         (busy_summary_of (Val (job_of user_failure_status)))) =
  this_state (busy_summary_of (Val (job_of user_failure_status))).
Proof.
  destruct (renderHintMessage_pure sample_humanize
              (summary_of (Val (job_of user_failure_status)))
              (busy_summary_of (Val (job_of user_failure_status)))
              eq_refl)
    as (Hsame & _ & Hstate).
  split; [exact Hsame | exact Hstate].
Defined.

Lemma stop_button_enabled_iff_witness :
  stopButtonDisabled sample_humanize (job_of (waiting_status Undefined)) = false /\
  stopButtonDisabled sample_humanize (job_of (no_exit_info "Succeeded" (Val 0%Z))) = true.
Proof.
  split.
  - apply (stop_button_enabled_iff sample_humanize
             (job_of (waiting_status Undefined))).
    right. reflexivity.
  - apply (stop_button_enabled_iff sample_humanize
             (job_of (no_exit_info "Succeeded" (Val 0%Z)))).
    cbn. auto.
Defined.

(** * Further properties of the component *)

Section MoreProperties.

(** Any implementation of [getHumanizedJobStateString]. *)
Variable humanize : JobInfo -> string.

(** ** Subsequences *)

Lemma subseq_In l2 : forall l1 x,
  subseq l1 l2 = true -> In x l1 -> In x l2.
Proof.
  induction l2 as [|y l2 IH]; intros [|a l1] x H Hin; cbn in *;
    try contradiction; try discriminate.
  destruct (String.eqb_spec a y) as [->|Hne].
  - destruct Hin as [<-|Hin]; [now left | right; eauto].
  - right. apply (IH (a :: l1)); [assumption | exact Hin].
Qed.

Lemma subseq_NoDup l2 : forall l1,
  subseq l1 l2 = true -> NoDup l2 -> NoDup l1.
Proof.
  induction l2 as [|y l2 IH]; intros [|a l1] H Hnd; cbn in *;
    try constructor; try discriminate.
  - destruct (String.eqb_spec a y) as [->|Hne].
    + inversion Hnd; subst. intros Hin. eauto using subseq_In.
    + inversion Hnd; subst.
      assert (Hn : NoDup (a :: l1)) by (apply IH; assumption).
      now inversion Hn.
  - destruct (String.eqb_spec a y) as [->|Hne].
    + inversion Hnd; subst. eauto.
    + inversion Hnd; subst.
      assert (Hn : NoDup (a :: l1)) by (apply IH; assumption).
      now inversion Hn.
Qed.

Lemma exit_headers_NoDup : NoDup exit_headers.
Proof.
  unfold exit_headers.
  repeat (constructor; [cbn; intuition discriminate|]). constructor.
Qed.

Lemma exit_keys_NoDup : NoDup exit_keys.
Proof.
  unfold exit_keys.
  repeat (constructor; [cbn; intuition discriminate|]). constructor.
Qed.

(** ** The rows of a Failed or Stopped job *)

Ltac case_conditions :=
  repeat match goal with
         | |- context [if ?b then _ else _] => destruct b
         end.

Ltac case_bodies status :=
  unfold exit_rows, exit_type_rows, exit_code_row, user_failure_rows,
    diagnosticsHint;
  destruct (strict_eq (exit_type_of status) "USER_FAILURE");
  destruct (to_boolean (exit_type_of status));
  destruct (hint_of_parts (reason_parts status));
  destruct (hint_of_parts (solution_parts status));
  destruct (trigger_message_body status);
  destruct (trigger_role_body status);
  destruct (trigger_index_body status);
  destruct (user_code_body status).

Lemma exit_rows_headers status :
  subseq (row_headers (exit_rows status)) exit_headers = true.
Proof. case_bodies status; reflexivity. Qed.

Lemma exit_rows_keys status :
  subseq (row_keys (exit_rows status)) exit_keys = true.
Proof. case_bodies status; reflexivity. Qed.

(** For a Failed or Stopped job the hint rows come in one fixed order: Exit
    Code, Exit Type, Exit Reason, Exit Solutions, Exit Trigger Message,
    Exit Trigger Task Role, Exit Trigger Task Index, Original User Exit
    Code, some of them left out; no header is shown twice (the diagnostics
    hint and the user-failure solutions share the header "Exit Solutions:"
    and never appear together). *)
Theorem exit_rows_in_fixed_order this info status :
  jobInfo (props this) = Val info ->
  jobStatus info = Val status ->
  humanize info = "Failed" \/ humanize info = "Stopped" ->
  exists r,
    renderHintMessage humanize this = (Return (Val r), this_state this) /\
    subseq (row_headers (hints_of r)) exit_headers = true /\
    NoDup (row_headers (hints_of r)).
Proof.
  intros Hi Hs Hst.
  eexists. split; [exact (renderHintMessage_exited humanize this Hi Hs Hst)|].
  rewrite exit_rows_hints.
  split; [apply exit_rows_headers|].
  eapply subseq_NoDup; [apply exit_rows_headers | apply exit_headers_NoDup].
Qed.

(** For a Failed or Stopped job the React keys of the rows of the rendered
    array are pairwise distinct. *)
Theorem exit_rows_keys_distinct this info status :
  jobInfo (props this) = Val info ->
  jobStatus info = Val status ->
  humanize info = "Failed" \/ humanize info = "Stopped" ->
  exists r,
    renderHintMessage humanize this = (Return (Val r), this_state this) /\
    NoDup (row_keys (hints_of r)).
Proof.
  intros Hi Hs Hst.
  eexists. split; [exact (renderHintMessage_exited humanize this Hi Hs Hst)|].
  rewrite exit_rows_hints.
  eapply subseq_NoDup; [apply exit_rows_keys | apply exit_keys_NoDup].
Qed.

Lemma find_user_code status :
  find_hint "Original User Exit Code:" (user_failure_rows status) =
  user_code_body status.
Proof.
  unfold user_failure_rows.
  rewrite !find_hint_app, !find_hint_row. cbn.
  destruct (user_code_body status); reflexivity.
Qed.

(** [getUserFailureHintItems] ends with the row "Original User Exit Code"
    exactly when there is a runtime output whose [originalUserExitCode] is
    neither [undefined] nor [null]; an original exit code 0 is shown as 0.
    Without a runtime output, or without that property, no such row is
    returned. *)
Theorem user_exit_code_row info status :
  jobStatus info = Val status ->
  exists items,
    getUserFailureHintItems info = Return items /\
    (forall output code,
       runtime_of status = Val output ->
       Runtime.originalUserExitCode output = Val code ->
       find_hint "Original User Exit Code:" items = Some [NNum code] /\
       exists front,
         items = front ++ [NHintItem "user-exit-code" "Original User Exit Code:"
                             [NNum code]]) /\
    ((forall output,
        runtime_of status = Val output ->
        isNil (Runtime.originalUserExitCode output) = true) ->
     find_hint "Original User Exit Code:" items = None).
Proof.
  intros Hs.
  eexists. split; [exact (getUserFailureHintItems_rows info Hs)|].
  rewrite find_user_code. unfold user_code_body.
  split.
  - intros output code Ho Hc. rewrite Ho, Hc. cbn [isNil].
    split; [reflexivity|].
    unfold user_failure_rows, user_code_body. rewrite Ho, Hc. cbn [isNil row].
    eexists. rewrite !app_assoc. reflexivity.
  - intros H. destruct (runtime_of status) as [| |output]; try reflexivity.
    now rewrite (H output eq_refl).
Qed.

(** ** Keys of the parts of a hint *)

Lemma row_keys_app l1 l2 : row_keys (l1 ++ l2) = row_keys l1 ++ row_keys l2.
Proof.
  induction l1 as [|n l1 IH]; cbn; [reflexivity|].
  destruct n; auto; try (cbn; now rewrite IH).
  destruct key; cbn; now rewrite IH.
Qed.

Lemma string_of_index_inj i j :
  string_of_index i = string_of_index j -> i = j.
Proof.
  unfold string_of_index. intros H.
  apply DecimalNat.Unsigned.to_uint_inj.
  assert (E : NilEmpty.uint_of_string (NilEmpty.string_of_uint (Nat.to_uint i)) =
              NilEmpty.uint_of_string (NilEmpty.string_of_uint (Nat.to_uint j)))
    by now rewrite H.
  rewrite !NilEmpty.usu in E. congruence.
Qed.

Lemma row_keys_mapi_from entries : forall i,
  row_keys (mapi_from solution_entry i entries) =
  map (fun j => ("spec-reason-" ++ string_of_index j)%string)
      (seq i (length entries)).
Proof.
  induction entries as [|x entries IH]; intros i; cbn; [reflexivity|].
  now rewrite IH.
Qed.

Lemma entry_keys_NoDup n : forall i,
  NoDup (map (fun j => ("spec-reason-" ++ string_of_index j)%string) (seq i n)).
Proof.
  induction n as [|n IH]; intros i; cbn [seq map]; constructor; [|apply IH].
  intros Hin. apply in_map_iff in Hin. destruct Hin as (j & Hj & Hseq).
  cbn in Hj. injection Hj as Hj. apply string_of_index_inj in Hj.
  apply in_seq in Hseq. lia.
Qed.

Lemma reason_parts_keys status :
  NoDup (row_keys (reason_parts status)) /\
  length (row_keys (reason_parts status)) = length (reason_parts status).
Proof.
  unfold reason_parts, part_if_present.
  case_conditions; cbn; split; try reflexivity;
    repeat (constructor; [cbn; intuition discriminate|]); constructor.
Qed.

Lemma solution_parts_keys status :
  NoDup (row_keys (solution_parts status)) /\
  length (row_keys (solution_parts status)) = length (solution_parts status).
Proof.
  unfold solution_parts, part_if_present, mapi.
  rewrite row_keys_app, !length_app.
  assert (Hentries :
    forall entries,
      ~ In "runtime-solution" (row_keys (mapi_from solution_entry 0 entries))).
  { intros entries Hin. rewrite row_keys_mapi_from in Hin.
    apply in_map_iff in Hin. destruct Hin as (j & Hj & _). discriminate Hj. }
  destruct (js_and (appExitSpec status) ExitSpec.solution) as [| |entries];
    destruct (to_boolean (js_and (runtime_of status) Runtime.solution));
    cbn [row_keys app length]; split;
    rewrite ?row_keys_mapi_from, ?length_map, ?length_seq, ?length_mapi_from;
    try reflexivity; try constructor; try apply entry_keys_NoDup;
    try (intros []); try constructor.
  rewrite <- row_keys_mapi_from. apply Hentries.
Qed.

(** For a Failed or Stopped user failure, every part inside the "Exit
    Reason" hint and inside the "Exit Solutions" hint carries a React key,
    and the keys within one hint are pairwise distinct, however many
    solution entries the exit spec lists. *)
Theorem hint_part_keys_distinct this info status :
  jobInfo (props this) = Val info ->
  jobStatus info = Val status ->
  humanize info = "Failed" \/ humanize info = "Stopped" ->
  exit_type_of status = Val "USER_FAILURE" ->
  exists r,
    renderHintMessage humanize this = (Return (Val r), this_state this) /\
    (forall parts,
       find_hint "Exit Reason:" (hints_of r) = Some [NArr parts] ->
       NoDup (row_keys parts) /\ length (row_keys parts) = length parts) /\
    (forall parts,
       find_hint "Exit Solutions:" (hints_of r) = Some [NArr parts] ->
       NoDup (row_keys parts) /\ length (row_keys parts) = length parts).
Proof.
  intros Hi Hs Hst Hty.
  eexists. split; [exact (renderHintMessage_exited humanize this Hi Hs Hst)|].
  rewrite exit_rows_hints.
  rewrite !find_hint_exit_rows_user_failure by (exact Hty || reflexivity).
  rewrite find_exit_reason, find_exit_solutions.
  split; intros parts H.
  - destruct (reason_parts status) as [|p ps] eqn:E; [discriminate|].
    injection H as <-. rewrite <- E. apply reason_parts_keys.
  - destruct (solution_parts status) as [|p ps] eqn:E; [discriminate|].
    injection H as <-. rewrite <- E. apply solution_parts_keys.
Qed.

(** A user failure without an exit code: [undefined > 0] is false, so the
    launcher message is used and the runtime reason is not; the "Exit Code"
    row is there with nothing in it. *)
Theorem missing_exit_code_uses_launcher this info status :
  jobInfo (props this) = Val info ->
  jobStatus info = Val status ->
  humanize info = "Failed" \/ humanize info = "Stopped" ->
  exit_type_of status = Val "USER_FAILURE" ->
  appExitCode status = Undefined ->
  exists r,
    renderHintMessage humanize this = (Return (Val r), this_state this) /\
    find_hint "Exit Code:" (hints_of r) = Some [NUndefined] /\
    find_hint "Exit Reason:" (hints_of r) =
      hint_of_parts
        (part_if_present "spec-reason" (js_and (appExitSpec status) ExitSpec.reason)
         ++ part_if_present "launcher-reason" (launcher_of status)).
Proof.
  intros Hi Hs Hst Hty Hcode.
  eexists. split; [exact (renderHintMessage_exited humanize this Hi Hs Hst)|].
  rewrite exit_rows_hints. split.
  - unfold exit_rows, exit_code_row. rewrite Hcode. reflexivity.
  - rewrite find_hint_exit_rows_user_failure by (exact Hty || reflexivity).
    rewrite find_exit_reason. unfold reason_parts. rewrite Hcode. reflexivity.
Qed.

(** ** When a message is rendered and when the method throws *)

Lemma renderHintMessage_exited_no_status this info :
  jobInfo (props this) = Val info ->
  humanize info = "Failed" \/ humanize info = "Stopped" ->
  isNil (jobStatus info) = true ->
  exists msg,
    renderHintMessage humanize this = (Throw (TypeError msg), this_state this).
Proof.
  intros Hi Hst Hnil.
  unfold renderHintMessage, bind, readProps, ret, lift.
  rewrite Hi.
  assert (Hb : (String.eqb (humanize info) "Failed"
                || String.eqb (humanize info) "Stopped") = true)
    by (destruct Hst as [-> | ->]; reflexivity).
  rewrite Hb.
  destruct (jobStatus info); try discriminate; cbn; eexists; reflexivity.
Qed.

Lemma js_ge_inv (x : js Z) (n : Z) :
  (0 < n)%Z -> js_ge x n = true -> exists z, x = Val z /\ (n <= z)%Z.
Proof.
  intros Hn H. destruct x as [| |z]; cbn in H.
  - discriminate.
  - apply Z.leb_le in H. lia.
  - apply Z.leb_le in H. eauto.
Qed.

Lemma get3_status_inv {A B : Type}
    (f : JobStatus -> js A) (g : A -> js B) info v :
  get3 jobStatus f g info = Val v -> exists status, jobStatus info = Val status.
Proof.
  unfold get3, baseGet. destruct (jobStatus info); try discriminate. eauto.
Qed.

(** The five ways through [renderHintMessage]. *)
Lemma renderHintMessage_cases this :
  (to_boolean (jobInfo (props this)) = false /\
   renderHintMessage humanize this = (Return Undefined, this_state this)) \/
  exists info,
    jobInfo (props this) = Val info /\
    ((exists status,
        (humanize info = "Failed" \/ humanize info = "Stopped") /\
        jobStatus info = Val status /\
        renderHintMessage humanize this =
          (Return (Val (NMessageBar (exit_bar (humanize info))
                          [NDiv None None [NArr (exit_rows status)]])),
           this_state this)) \/
     ((humanize info = "Failed" \/ humanize info = "Stopped") /\
      isNil (jobStatus info) = true /\
      exists msg,
        renderHintMessage humanize this =
          (Throw (TypeError msg), this_state this)) \/
     (humanize info = "Waiting" /\
      renderHintMessage humanize this =
        (Return
           (if js_ge (get3 jobStatus retryDetails RetryDetails.resource info) 3
            then Val (NMessageBar MessageBarType.warning
                        [NDiv None None
                           [NHintItem "conflict-retry-count" "Conflict Count:"
                              [to_node (get3 jobStatus retryDetails
                                          RetryDetails.resource info)];
                            resolutionHint]])
            else Undefined),
         this_state this)) \/
     (humanize info <> "Failed" /\ humanize info <> "Stopped" /\
      humanize info <> "Waiting" /\
      renderHintMessage humanize this = (Return Undefined, this_state this))).
Proof.
  destruct (jobInfo (props this)) as [| |info] eqn:Hi.
  - left. split; [reflexivity|].
    apply renderHintMessage_no_jobInfo. now rewrite Hi.
  - left. split; [reflexivity|].
    apply renderHintMessage_no_jobInfo. now rewrite Hi.
  - right. exists info. split; [reflexivity|].
    assert (Hexit :
      humanize info = "Failed" \/ humanize info = "Stopped" ->
      (exists status,
         (humanize info = "Failed" \/ humanize info = "Stopped") /\
         jobStatus info = Val status /\
         renderHintMessage humanize this =
           (Return (Val (NMessageBar (exit_bar (humanize info))
                           [NDiv None None [NArr (exit_rows status)]])),
            this_state this)) \/
      ((humanize info = "Failed" \/ humanize info = "Stopped") /\
       isNil (jobStatus info) = true /\
       exists msg,
         renderHintMessage humanize this =
           (Throw (TypeError msg), this_state this))).
    { intros Hst. destruct (jobStatus info) as [| |status] eqn:Hs.
      - right. split; [assumption|]. split; [reflexivity|].
        apply renderHintMessage_exited_no_status with info; auto.
        now rewrite Hs.
      - right. split; [assumption|]. split; [reflexivity|].
        apply renderHintMessage_exited_no_status with info; auto.
        now rewrite Hs.
      - left. exists status. split; [assumption|]. split; [reflexivity|].
        exact (renderHintMessage_exited humanize this Hi Hs Hst). }
    destruct (String.eqb_spec (humanize info) "Failed") as [HF|HF];
      [destruct (Hexit (or_introl HF)); tauto|].
    destruct (String.eqb_spec (humanize info) "Stopped") as [HS|HS];
      [destruct (Hexit (or_intror HS)); tauto|].
    destruct (String.eqb_spec (humanize info) "Waiting") as [HW|HW].
    + right. right. left. split; [assumption|].
      exact (renderHintMessage_waiting humanize this Hi HW).
    + right. right. right. repeat split; try assumption.
      exact (renderHintMessage_other humanize this Hi HF HS HW).
Qed.

(** Whenever [renderHintMessage] returns an element, the job has a
    [jobStatus], the element is a message bar, and its type tells the state:
    [error] for a Failed job, [info] for a Stopped one, [warning] for a
    Waiting one with at least three resource retries.  The state of the
    component is as before. *)
Theorem rendered_message_classified this r s :
  renderHintMessage humanize this = (Return (Val r), s) ->
  s = this_state this /\
  exists info status,
    jobInfo (props this) = Val info /\
    jobStatus info = Val status /\
    ((humanize info = "Failed" /\
      severity_of r = Some MessageBarType.error) \/
     (humanize info = "Stopped" /\
      severity_of r = Some MessageBarType.info) \/
     (humanize info = "Waiting" /\
      severity_of r = Some MessageBarType.warning /\
      exists n, baseGet (retryDetails status) RetryDetails.resource = Val n /\
                (3 <= n)%Z)).
Proof.
  intros H.
  destruct (renderHintMessage_cases this)
    as [[_ E] | (info & Hi & [(status & Hst & Hs & E)
                             | [(_ & _ & msg & E)
                             | [(HW & E) | (_ & _ & _ & E)]]])];
    rewrite E in H; try discriminate.
  - injection H as <- <-. split; [reflexivity|].
    exists info, status. repeat split; try assumption.
    unfold exit_bar. destruct Hst as [-> | ->]; cbn; auto.
  - destruct (js_ge _ 3) eqn:Hge; [|discriminate].
    injection H as <- <-. split; [reflexivity|].
    apply js_ge_inv in Hge; [|lia]. destruct Hge as (n & Hn & Hle).
    destruct (get3_status_inv _ _ _ Hn) as [status Hs].
    exists info, status. repeat split; try assumption.
    right. right. repeat split; try assumption.
    exists n. split; [|assumption].
    unfold get3 in Hn. rewrite Hs in Hn. exact Hn.
Qed.

(** [getUserFailureHintItems] throws exactly when the job has no
    [jobStatus]: the exit code is the one property it reads without lodash
    [get]. *)
Theorem getUserFailureHintItems_throws_iff info :
  (exists e, getUserFailureHintItems info = Throw e) <->
  isNil (jobStatus info) = true.
Proof.
  split.
  - intros [e H]. destruct (jobStatus info) as [| |status] eqn:Hs;
      try reflexivity.
    rewrite (getUserFailureHintItems_rows info Hs) in H. discriminate.
  - intros H. unfold getUserFailureHintItems.
    destruct (jobStatus info); try discriminate; cbn; eexists; reflexivity.
Qed.

(** ** The editor and the timer *)

Lemma showExitDiagnostics_status this info status :
  jobInfo (props this) = Val info ->
  jobStatus info = Val status ->
  showExitDiagnostics this =
  (Return tt,
   mkState (Val (mkMonacoProps "text" (appExitDiagnostics status)))
           "Exit Diagnostics" (autoReloadInterval (this_state this))).
Proof.
  intros Hi Hs.
  unfold showExitDiagnostics, bind, readProps, lift, showEditor, setState.
  rewrite Hi. cbn. rewrite Hs. reflexivity.
Qed.

Lemma showExitDiagnostics_throws this :
  isNil (jobInfo (props this)) = true \/
  (exists info, jobInfo (props this) = Val info /\
                isNil (jobStatus info) = true) ->
  exists e, showExitDiagnostics this = (Throw e, this_state this).
Proof.
  unfold showExitDiagnostics, bind, readProps, lift, showEditor, setState.
  intros [H | (info & Hi & H)].
  - destruct (jobInfo (props this)); try discriminate; cbn; eauto.
  - rewrite Hi. cbn. destruct (jobStatus info); try discriminate; cbn; eauto.
Qed.

(** The links inside a rendered hint can be clicked safely: whenever
    [renderHintMessage] returns an element, the job of the component has a
    [jobStatus] and [showExitDiagnostics] on the same component does not
    throw; it opens the editor, titled "Exit Diagnostics", on the
    [appExitDiagnostics] of that very status and keeps the refresh
    interval. *)
Theorem rendered_hint_link_opens_diagnostics this r s :
  renderHintMessage humanize this = (Return (Val r), s) ->
  exists info status,
    jobInfo (props this) = Val info /\
    jobStatus info = Val status /\
    showExitDiagnostics this =
      (Return tt,
       mkState (Val (mkMonacoProps "text" (appExitDiagnostics status)))
               "Exit Diagnostics" (autoReloadInterval (this_state this))) /\
    monacoPanelIsOpen (snd (showExitDiagnostics this)) = true.
Proof.
  intros H.
  assert (Hstatus : exists info status,
             jobInfo (props this) = Val info /\ jobStatus info = Val status).
  { destruct (renderHintMessage_cases this)
      as [[_ E] | (info & Hi & [(status & Hst & Hs & E)
                               | [(_ & _ & msg & E)
                               | [(HW & E) | (_ & _ & _ & E)]]])];
      rewrite E in H; try discriminate.
    - eauto.
    - destruct (js_ge _ 3) eqn:Hge; [|discriminate].
      apply js_ge_inv in Hge; [|lia]. destruct Hge as (n & Hn & _).
      destruct (get3_status_inv _ _ _ Hn) as [status Hs]. eauto. }
  destruct Hstatus as (info & status & Hi & Hs).
  exists info, status.
  rewrite (showExitDiagnostics_status this Hi Hs).
  repeat split; assumption.
Qed.

(** The "View Exit Diagnostics" link and its handler agree: when the link
    is enabled, [showExitDiagnostics] opens the editor on a text that is
    there; computing the [disabled] flag throws exactly when the handler
    would throw, and a handler that throws leaves the state as it was. *)
Theorem enabled_diagnostics_link_shows_text this :
  (viewExitDiagnosticsDisabled (props this) = Return false ->
   exists text,
     showExitDiagnostics this =
       (Return tt,
        mkState (Val (mkMonacoProps "text" (Val text)))
                "Exit Diagnostics" (autoReloadInterval (this_state this)))) /\
  ((exists e, viewExitDiagnosticsDisabled (props this) = Throw e) <->
   (exists e, showExitDiagnostics this = (Throw e, this_state this))) /\
  (forall e s, showExitDiagnostics this = (Throw e, s) -> s = this_state this).
Proof.
  unfold viewExitDiagnosticsDisabled.
  destruct (jobInfo (props this)) as [| |info] eqn:Hi.
  1, 2: (split; [discriminate|]; split;
         [split; intros _;
          [apply showExitDiagnostics_throws; left; now rewrite Hi
          | cbn; eauto]
         | intros e s H;
           destruct (showExitDiagnostics_throws this) as [e' E];
           [left; now rewrite Hi | rewrite E in H; now injection H]]).
  cbn [member obind].
  destruct (jobStatus info) as [| |status] eqn:Hs.
  1, 2: (split; [discriminate|]; split;
         [split; intros _;
          [apply showExitDiagnostics_throws; right; exists info;
           split; [exact Hi | now rewrite Hs]
          | cbn; eauto]
         | intros e s H;
           destruct (showExitDiagnostics_throws this) as [e' E];
           [right; exists info; split; [assumption | now rewrite Hs]
           | rewrite E in H; now injection H]]).
  cbn [member obind].
  rewrite (showExitDiagnostics_status this Hi Hs).
  split; [|split].
  - intros H. destruct (appExitDiagnostics status) as [| |text];
      try discriminate. eauto.
  - split; intros [e H]; discriminate.
  - intros e s H. discriminate.
Qed.

(** Opening the editor and dismissing it: after [showEditor] the panel is
    open under the given title; [onDismiss] afterwards closes it and clears
    the title, whatever was shown; neither of the two changes the timer. *)
Theorem editor_open_then_dismiss title p this :
  monacoPanelIsOpen (snd (showEditor title p this)) = true /\
  modalTitle (snd (showEditor title p this)) = title /\
  snd (bind (showEditor title p) (fun _ => onDismiss) this) =
    snd (onDismiss this) /\
  monacoPanelIsOpen (snd (bind (showEditor title p) (fun _ => onDismiss) this))
    = false /\
  timerInterval (snd (showEditor title p this)) =
    timerInterval (this_state this) /\
  timerInterval (snd (bind (showEditor title p) (fun _ => onDismiss) this)) =
    timerInterval (this_state this).
Proof. repeat split. Qed.

(** Choosing a refresh interval: [onChangeInterval] replaces the interval
    and nothing else, so the editor keeps its contents and its title, open
    or closed; afterwards the timer is off exactly when the chosen key is 0
    and otherwise runs with the chosen key. *)
Theorem onChangeInterval_sets_timer key this :
  onChangeInterval key this =
    (Return tt,
     mkState (monacoProps (this_state this)) (modalTitle (this_state this)) key) /\
  (timerInterval (snd (onChangeInterval key this)) = Null <-> key = 0%Z) /\
  (key <> 0%Z -> timerInterval (snd (onChangeInterval key this)) = Val key) /\
  monacoProps (snd (onChangeInterval key this)) = monacoProps (this_state this) /\
  monacoPanelIsOpen (snd (onChangeInterval key this)) =
    monacoPanelIsOpen (this_state this) /\
  modalTitle (snd (onChangeInterval key this)) = modalTitle (this_state this).
Proof.
  unfold onChangeInterval, setState, timerInterval. cbn.
  destruct (Z.eqb_spec key 0) as [->|Hne].
  - repeat split; congruence.
  - repeat split; congruence.
Qed.

(** A rendered hint and the Stop button: when [renderHintMessage] returns
    an element, it is a warning exactly when the Stop button is enabled;
    the error and info bars of Failed and Stopped jobs come with a disabled
    Stop button. *)
Theorem warning_iff_stop_enabled this info r s :
  jobInfo (props this) = Val info ->
  renderHintMessage humanize this = (Return (Val r), s) ->
  (stopButtonDisabled humanize info = false <->
   severity_of r = Some MessageBarType.warning).
Proof.
  intros Hinfo H.
  unfold stopButtonDisabled, StoppableStatus. cbn [includes].
  destruct (renderHintMessage_cases this)
    as [[_ E] | (info' & Hi & [(status & Hst & Hs & E)
                              | [(_ & _ & msg & E)
                              | [(HW & E) | (_ & _ & _ & E)]]])];
    rewrite E in H; try discriminate.
  - assert (info' = info) by congruence. subst info'.
    injection H as <- <-. unfold exit_bar.
    destruct Hst as [-> | ->]; cbn; split; discriminate.
  - assert (info' = info) by congruence. subst info'.
    destruct (js_ge _ 3); [|discriminate].
    injection H as <- <-. rewrite HW. cbn. split; reflexivity.
Qed.

End MoreProperties.

(** * The further properties at sample jobs *)

Lemma exit_rows_in_fixed_order_witness :
  exists r,
    renderHintMessage sample_humanize
      (summary_of (Val (job_of user_failure_status))) =
      (Return (Val r), initial_state) /\
    row_headers (hints_of r) = exit_headers.
Proof.
  destruct (exit_rows_in_fixed_order sample_humanize
              (summary_of (Val (job_of user_failure_status)))
              (info := job_of user_failure_status)
              (status := user_failure_status)
              eq_refl eq_refl (or_introl eq_refl))
    as (r & Hr & _ & _).
  exists r. split; [exact Hr|].
  injection Hr as <-. reflexivity.
Defined.

Lemma exit_rows_keys_distinct_witness :
  exists r,
    renderHintMessage sample_humanize
      (summary_of (Val (job_of (no_exit_info "Stopped" (Val (-1)%Z))))) =
      (Return (Val r), initial_state) /\
    NoDup (row_keys (hints_of r)).
Proof.
  exact (exit_rows_keys_distinct sample_humanize
           (summary_of (Val (job_of (no_exit_info "Stopped" (Val (-1)%Z)))))
           (info := job_of (no_exit_info "Stopped" (Val (-1)%Z)))
           (status := no_exit_info "Stopped" (Val (-1)%Z))
           eq_refl eq_refl (or_intror eq_refl)).
Defined.

Lemma user_exit_code_row_witness :
  exists items,
    getUserFailureHintItems (job_of user_failure_status) = Return items /\
    find_hint "Original User Exit Code:" items = Some [NNum 0].
Proof.
  destruct (user_exit_code_row (job_of user_failure_status)
              (status := user_failure_status) eq_refl)
    as (items & Hitems & Hcode & _).
  exists items. split; [exact Hitems|].
  apply (Hcode (Runtime.mk (Val "R2") (Val "S1") (Val 0%Z)) 0%Z);
    reflexivity.
Defined.

Lemma hint_part_keys_distinct_witness :
  exists r,
    renderHintMessage sample_humanize
      (summary_of (Val (job_of user_failure_status))) =
      (Return (Val r), initial_state) /\
    NoDup (row_keys (solution_parts user_failure_status)).
Proof.
  destruct (hint_part_keys_distinct sample_humanize
              (summary_of (Val (job_of user_failure_status)))
              (info := job_of user_failure_status)
              (status := user_failure_status)
              eq_refl eq_refl (or_introl eq_refl) eq_refl)
    as (r & Hr & _ & Hsolutions).
  exists r. split; [exact Hr|].
  apply Hsolutions. injection Hr as <-. reflexivity.
Defined.

Lemma missing_exit_code_uses_launcher_witness :
  exists r,
    renderHintMessage sample_humanize (summary_of (Val (job_of no_code_status))) =
      (Return (Val r), initial_state) /\
    find_hint "Exit Reason:" (hints_of r) =
      Some [NArr [NDiv (Some "launcher-reason") None [NText "L1"]]].
Proof.
  destruct (missing_exit_code_uses_launcher sample_humanize
              (summary_of (Val (job_of no_code_status)))
              (info := job_of no_code_status) (status := no_code_status)
              eq_refl eq_refl (or_introl eq_refl) eq_refl eq_refl)
    as (r & Hr & _ & Hreason).
  exists r. split; [exact Hr | exact Hreason].
Defined.

Lemma rendered_message_classified_witness :
  exists info status,
    jobInfo (props (summary_of (Val (job_of (waiting_status (Val 3%Z)))))) =
      Val info /\
    jobStatus info = Val status.
Proof.
  destruct (rendered_message_classified sample_humanize
              (summary_of (Val (job_of (waiting_status (Val 3%Z)))))
              (r := NMessageBar MessageBarType.warning
                      [NDiv None None
                         [NHintItem "conflict-retry-count" "Conflict Count:"
                            [NNum 3];
                          resolutionHint]])
              (s := initial_state) eq_refl)
    as (_ & info & status & Hi & Hs & _).
  exists info, status. split; [exact Hi | exact Hs].
Defined.

Lemma getUserFailureHintItems_throws_iff_witness :
  exists e, getUserFailureHintItems (mkJobInfo (Val "job-1") Null) = Throw e.
Proof.
  apply (getUserFailureHintItems_throws_iff (mkJobInfo (Val "job-1") Null)).
  reflexivity.
Defined.

Lemma rendered_hint_link_opens_diagnostics_witness :
  showExitDiagnostics (summary_of (Val (job_of user_failure_status))) =
  (Return tt,
   mkState (Val (mkMonacoProps "text" (Val "diagnostics")))
           "Exit Diagnostics" 10000).
Proof.
  destruct (rendered_hint_link_opens_diagnostics sample_humanize
              (summary_of (Val (job_of user_failure_status)))
              (r := match renderHintMessage sample_humanize
                            (summary_of (Val (job_of user_failure_status))) with
                    | (Return (Val r), _) => r
                    | _ => NUndefined
                    end)
              (s := initial_state) eq_refl)
    as (info & status & Hi & Hs & Hshow & _).
  injection Hi as <-. injection Hs as <-. exact Hshow.
Defined.

Lemma enabled_diagnostics_link_shows_text_witness :
  exists text,
    showExitDiagnostics (summary_of (Val (job_of user_failure_status))) =
      (Return tt,
       mkState (Val (mkMonacoProps "text" (Val text))) "Exit Diagnostics" 10000).
Proof.
  destruct (enabled_diagnostics_link_shows_text
              (summary_of (Val (job_of user_failure_status))))
    as (Henabled & _).
  apply Henabled. reflexivity.
Defined.

Lemma onChangeInterval_sets_timer_witness :
  timerInterval (snd (onChangeInterval 30000 (summary_of Undefined))) =
  Val 30000%Z.
Proof.
  destruct (onChangeInterval_sets_timer 30000 (summary_of Undefined))
    as (_ & _ & Hrun & _).
  apply Hrun. lia.
Defined.

Lemma warning_iff_stop_enabled_witness :
  stopButtonDisabled sample_humanize (job_of (waiting_status (Val 3%Z))) = false.
Proof.
  apply (warning_iff_stop_enabled sample_humanize
           (summary_of (Val (job_of (waiting_status (Val 3%Z)))))
           (info := job_of (waiting_status (Val 3%Z)))
           (r := NMessageBar MessageBarType.warning
                   [NDiv None None
                      [NHintItem "conflict-retry-count" "Conflict Count:"
                         [NNum 3];
                       resolutionHint]])
           (s := initial_state) eq_refl eq_refl).
  reflexivity.
Defined.
